(** * Contract analyzer backend: PDF text extraction, GPT analysis, HTTP endpoint

    A shallow embedding of [backend/pdf_processor.py], [backend/gpt_analyzer.py]
    and [backend/main.py].

    Conventions of the embedding.
    - A Python [str] is a [string]; a character stands for a code point below
      256, so [isspace] and [lower] are Python's on that alphabet.
    - A Python object that the code handles dynamically (the decoded reply, the
      reply's [content], the values the analysis returns) is a [pyval].
    - An exception is a value [exn]; code that may raise returns a [result].
      Only subclasses of [Exception] are represented.
    - The LLM transport, the JSON decoder, the PDF reader and the temporary
      file are collaborators outside the repository: they are parameters of the
      functions that use them.
    - Effects on the outside world (requests sent to the transport, lines
      printed) are recorded in a [world] that is threaded through the code. *)

From Stdlib Require Import String Ascii List ZArith Bool Arith Lia.
From Stdlib Require Import DecimalString.
Import ListNotations.
Open Scope list_scope.
Open Scope string_scope.

(* ================================================================== *)
(** * Python values, exceptions and string methods *)

Module Py.

(** Exception classes that the code names in an [except] clause or that the
    modelled operations raise.  [Other n bases] is any further class, given
    by its name and its direct base classes; every class is, in the end, a
    subclass of [Exception]. *)
#[warnings="-register-all"]
Inductive exn_class : Type :=
| Exception
| OSError            (* EnvironmentError is an alias of OSError *)
| ValueError
| JSONDecodeError    (* json.JSONDecodeError, a ValueError *)
| AttributeError
| TypeError
| LookupError
| IndexError         (* a LookupError *)
| APIError           (* openai.APIError *)
| PdfReadError       (* PyPDF2.errors.PdfReadError *)
| HTTPError          (* fastapi.HTTPException *)
| Other (name : string) (bases : list exn_class).

Definition EnvironmentError : exn_class := OSError.

(** Two classes are the same when they have the same name. *)
Definition exn_class_eqb (a b : exn_class) : bool :=
  match a, b with
  | Exception, Exception | OSError, OSError | ValueError, ValueError
  | JSONDecodeError, JSONDecodeError | AttributeError, AttributeError
  | TypeError, TypeError | LookupError, LookupError | IndexError, IndexError
  | APIError, APIError | PdfReadError, PdfReadError
  | HTTPError, HTTPError => true
  | Other n _, Other m _ => String.eqb n m
  | _, _ => false
  end.

(** [issubclass a b]: [a] is [b], or [b] is [Exception], or [b] is reached
    from [a] through base classes. *)
Fixpoint issubclass (a b : exn_class) : bool :=
  exn_class_eqb a b || exn_class_eqb b Exception ||
  match a with
  | JSONDecodeError => exn_class_eqb b ValueError
  | IndexError => exn_class_eqb b LookupError
  | Other _ bases =>
      (fix any (l : list exn_class) : bool :=
         match l with
         | [] => false
         | parent :: rest => issubclass parent b || any rest
         end) bases
  | _ => false
  end.

(** An exception object: its class and what [str(e)] returns.  An
    [HTTPException] carries a status code and a detail. *)
Inductive exn : Type :=
| Exn (cls : exn_class) (msg : string)
| HTTPException (status_code : Z) (detail : string).

Definition class_of (e : exn) : exn_class :=
  match e with
  | Exn c _ => c
  | HTTPException _ _ => HTTPError
  end.

Definition isinstance (e : exn) (c : exn_class) : bool :=
  issubclass (class_of e) c.

Inductive result (A : Type) : Type :=
| Ok (a : A)
| Raise (e : exn).
Arguments Ok {A} a.
Arguments Raise {A} e.

Definition rbind {A B} (m : result A) (k : A -> result B) : result B :=
  match m with
  | Ok a => k a
  | Raise e => Raise e
  end.

(** Dynamically typed values.  A [float] is kept as a literal that denotes
    it; the floats that are not finite are written [nan], [inf] and [-inf],
    as [repr] writes them. *)
#[warnings="-register-all"]
Inductive pyval : Type :=
| PNone
| PBool (b : bool)
| PInt (z : Z)
| PFloat (lit : string)
| PStr (s : string)
| PList (items : list pyval)
| PDict (entries : list (string * pyval)).

Definition is_None (v : pyval) : bool :=
  match v with PNone => true | _ => false end.

(** [isinstance(v, str)] *)
Definition is_str (v : pyval) : bool :=
  match v with PStr _ => true | _ => false end.

(** [isinstance(v, list)] *)
Definition is_list (v : pyval) : bool :=
  match v with PList _ => true | _ => false end.

(** [type(v).__name__] *)
Definition type_name (v : pyval) : string :=
  match v with
  | PNone => "NoneType"
  | PBool _ => "bool"
  | PInt _ => "int"
  | PFloat _ => "float"
  | PStr _ => "str"
  | PList _ => "list"
  | PDict _ => "dict"
  end.

(** Lookup in a dict given by its entries (keys are unique in a dict). *)
Fixpoint lookup (key : string) (entries : list (string * pyval)) : option pyval :=
  match entries with
  | [] => None
  | (k, v) :: rest => if String.eqb k key then Some v else lookup key rest
  end.

(** [obj.get(key, default)]: only a dict has the method. *)
Definition get (obj : pyval) (key : string) (default : pyval) : result pyval :=
  match obj with
  | PDict entries =>
      Ok (match lookup key entries with Some v => v | None => default end)
  | _ =>
      Raise (Exn AttributeError
               ("'" ++ type_name obj ++ "' object has no attribute 'get'"))
  end.

(** ** String methods *)

Definition code (c : ascii) : nat := nat_of_ascii c.

(** [str.isspace] on one character: U+0009..U+000D, U+001C..U+0020, U+0085
    and U+00A0 are the white-space code points below 256. *)
Definition isspace (c : ascii) : bool :=
  let n := code c in
  (((9 <=? n) && (n <=? 13)) || ((28 <=? n) && (n <=? 32))
   || (n =? 133) || (n =? 160))%nat.

Fixpoint all_space (s : string) : bool :=
  match s with
  | EmptyString => true
  | String c s' => isspace c && all_space s'
  end.

Fixpoint lstrip (s : string) : string :=
  match s with
  | EmptyString => EmptyString
  | String c s' => if isspace c then lstrip s' else s
  end.

Fixpoint rstrip (s : string) : string :=
  match s with
  | EmptyString => EmptyString
  | String c s' =>
      match rstrip s' with
      | EmptyString => if isspace c then EmptyString else String c EmptyString
      | r => String c r
      end
  end.

(** [s.strip()] *)
Definition strip (s : string) : string := rstrip (lstrip s).

(** Truth value of a string: [not s] holds of the empty string only. *)
Definition truthy (s : string) : bool :=
  match s with EmptyString => false | _ => true end.

(** [str.lower] on one character: A..Z, and the upper-case letters of
    U+00C0..U+00DE (U+00D7 is the multiplication sign). *)
Definition lower_char (c : ascii) : ascii :=
  let n := code c in
  if (((65 <=? n) && (n <=? 90))
      || ((192 <=? n) && (n <=? 222) && negb (n =? 215)))%nat
  then ascii_of_nat (n + 32) else c.

Fixpoint lower (s : string) : string :=
  match s with
  | EmptyString => EmptyString
  | String c s' => String (lower_char c) (lower s')
  end.

(** [s.endswith(suffix)] *)
Fixpoint endswith (s suffix : string) : bool :=
  String.eqb s suffix ||
  match s with
  | EmptyString => false
  | String _ s' => endswith s' suffix
  end.

(** [needle in hay] *)
Fixpoint contains (needle hay : string) : bool :=
  String.prefix needle hay ||
  match hay with
  | EmptyString => false
  | String _ hay' => contains needle hay'
  end.

(** [str(e)] *)
Definition str_exn (e : exn) : string :=
  match e with
  | Exn _ msg => msg
  | HTTPException status_code detail =>
      NilZero.string_of_int (Z.to_int status_code) ++ ": " ++ detail
  end.

Definition quote : string := String "034" EmptyString.
Definition newline : string := String "010" EmptyString.

End Py.

(* ================================================================== *)
(** * The collaborators: LLM transport, JSON decoder, PDF reader *)

Module OpenAI.

(** Keyword arguments of [openai.ChatCompletion.acreate]. *)
Record request : Type := {
  model : string;
  messages : Py.pyval;
  temperature : Py.pyval;
  response_format : Py.pyval
}.

(** The part of a reply that the code reads:
    [response.choices[0].message.content]. *)
Record message : Type := { content : Py.pyval }.
Record choice : Type := { message_of : message }.
Record response : Type := { choices : list choice }.

(** One call of the transport: a reply, or an exception. *)
Definition transport : Type := request -> Py.result response.

End OpenAI.

Module PyPDF2.

(** A page: [page.extract_text()] returns text, returns [None], or raises. *)
Record page : Type := { extract_text : Py.result (option string) }.

(** A reader: [len(reader.pages)] and [reader.pages[i]] are computed on
    demand, and either may raise. *)
Record reader : Type := {
  num_pages : Py.result nat;
  get_page : nat -> Py.result page
}.

(** [PyPDF2.PdfReader(BytesIO(b))] *)
Definition PdfReader_t : Type := list Byte.byte -> Py.result reader.

End PyPDF2.

(* ================================================================== *)
(** * Effects: the world, and computations over it *)

Module IO.
Import Py.

Record world : Type := {
  calls : list OpenAI.request;   (* requests sent to the transport, in order *)
  stdout : list string           (* lines printed, in order *)
}.

Definition initial : world := {| calls := []; stdout := [] |}.

Definition IO (A : Type) : Type := world -> result A * world.

Definition ret {A} (a : A) : IO A := fun w => (Ok a, w).

Definition raise {A} (e : exn) : IO A := fun w => (Raise e, w).

Definition bind {A B} (m : IO A) (k : A -> IO B) : IO B :=
  fun w =>
    match m w with
    | (Ok a, w') => k a w'
    | (Raise e, w') => (Raise e, w')
    end.

Definition lift {A} (r : result A) : IO A := fun w => (r, w).

(** [print(line)] *)
Definition print (line : string) : IO unit :=
  fun w => (Ok tt, {| calls := calls w; stdout := (stdout w ++ [line])%list |}).

(** [await openai.ChatCompletion.acreate(...)] against a given transport. *)
Definition acreate (t : OpenAI.transport) (req : OpenAI.request)
  : IO OpenAI.response :=
  fun w => (t req, {| calls := (calls w ++ [req])%list; stdout := stdout w |}).

(** First [except] clause whose class the exception is an instance of. *)
Fixpoint select {H : Type} (e : exn) (clauses : list (exn_class * H)) : option H :=
  match clauses with
  | [] => None
  | (c, h) :: rest => if isinstance e c then Some h else select e rest
  end.

(** [try: body  except C1 as e: h1 e  except C2 as e: h2 e ...] *)
Definition try_except {A} (body : IO A)
  (clauses : list (exn_class * (exn -> IO A))) : IO A :=
  fun w =>
    match body w with
    | (Ok a, w') => (Ok a, w')
    | (Raise e, w') =>
        match select e clauses with
        | Some h => h e w'
        | None => (Raise e, w')
        end
    end.

(** The same statement for code without effects. *)
Definition try_except_pure {A} (body : result A)
  (clauses : list (exn_class * (exn -> result A))) : result A :=
  match body with
  | Ok a => Ok a
  | Raise e =>
      match select e clauses with
      | Some h => h e
      | None => Raise e
      end
  end.

End IO.

Declare Scope io_scope.
Delimit Scope io_scope with io.
Notation "x <- m ;; k" := (IO.bind m (fun x => k))
  (at level 61, m at next level, right associativity) : io_scope.
Notation "m ;;; k" := (IO.bind m (fun _ => k))
  (at level 61, right associativity) : io_scope.

Declare Scope result_scope.
Delimit Scope result_scope with res.
Notation "x <- m ;; k" := (Py.rbind m (fun x => k))
  (at level 61, m at next level, right associativity) : result_scope.

(* ================================================================== *)
(** * backend/pdf_processor.py *)

Module PdfProcessor.
Import Py.

(** [t or ""] for what [page.extract_text()] returned. *)
Definition or_empty (t : option string) : string :=
  match t with
  | Some (String c r) => String c r
  | _ => EmptyString
  end.

Section WithReader.
Variable PdfReader : PyPDF2.PdfReader_t.

(** The loop [for page_num in range(...)], on the page numbers still to
    visit and the text gathered so far. *)
Fixpoint for_page_num (pdf_reader : PyPDF2.reader) (page_nums : list nat)
  (text : string) : result string :=
  match page_nums with
  | [] => Ok text
  | page_num :: rest =>
      (page <- PyPDF2.get_page pdf_reader page_num ;;
       t <- PyPDF2.extract_text page ;;
       for_page_num pdf_reader rest (text ++ or_empty t))%res
  end.

Definition extract_text_from_pdf (pdf_file_bytes : list Byte.byte)
  : result string :=
  IO.try_except_pure
    (pdf_reader <- PdfReader pdf_file_bytes ;;
     n <- PyPDF2.num_pages pdf_reader ;;
     for_page_num pdf_reader (seq 0 n) "")%res
    [ (PdfReadError, fun _ => Ok "");
      (Exception, fun _ => Ok "") ].

End WithReader.
End PdfProcessor.

(* ================================================================== *)
(** * The [json] module, as far as the code uses it *)

Module Json.
Import Py.

(** [json.loads(content)] over a decoder of [str]: any other object is a
    [TypeError]. *)
Definition loads (decode : string -> result pyval) (content : pyval)
  : result pyval :=
  match content with
  | PStr s => decode s
  | v =>
      Raise (Exn TypeError
               ("the JSON object must be str, bytes or bytearray, not "
                ++ type_name v))
  end.

(** Whether the float written [lit] is finite. *)
Definition float_is_finite (lit : string) : bool :=
  negb (String.eqb lit "nan" || String.eqb lit "inf" || String.eqb lit "-inf").

(** Whether [json.dumps(v, allow_nan=False)] succeeds: it raises a
    [ValueError] on a float that is not finite, wherever in [v] it occurs. *)
Fixpoint encodable (v : pyval) : bool :=
  match v with
  | PFloat lit => float_is_finite lit
  | PList items => forallb encodable items
  | PDict entries => forallb (fun kv => encodable (snd kv)) entries
  | _ => true
  end.

End Json.

(* ================================================================== *)
(** * backend/gpt_analyzer.py *)

Module GptAnalyzer.
Import Py IO.

Definition q (s : string) : string := quote ++ s ++ quote.

Definition unlines (ls : list string) : string :=
  fold_right (fun l acc => l ++ newline ++ acc) "" ls.

Definition system_prompt : string :=
  unlines
    [ "You are a helpful assistant specialized in contract law and analysis.";
      "Your task is to review a contract text, simplify it into plain English, and identify any clauses that might be unfavorable to one party or potential cons.";
      "Present the output clearly, with a summary section and a list of cons.";
      "Respond in JSON format with two keys: " ++ q "simplified_contract"
        ++ " and " ++ q "cons" ++ ".";
      "The " ++ q "simplified_contract" ++ " should be a string.";
      "The " ++ q "cons" ++ " should be a list of strings, where each string is a specific con or unfavorable clause found.";
      "If no specific cons are found, the " ++ q "cons"
        ++ " list should be empty.";
      "Example JSON output:";
      "{";
      "  " ++ q "simplified_contract" ++ ": "
        ++ q "This is a plain English summary of the contract..." ++ ",";
      "  " ++ q "cons" ++ ": [";
      "    " ++ q "Clause 3.1: The termination conditions are heavily skewed in favor of Party A." ++ ",";
      "    " ++ q "Section 5: The liability cap for Party B is unusually low.";
      "  ]";
      "}" ].

Definition user_prompt (contract_text : string) : string :=
  "Please analyze the following contract text:" ++ newline ++ newline
  ++ "```" ++ newline ++ contract_text ++ newline ++ "```".

Definition default_model : string := "gpt-3.5-turbo".

Definition chat_request (model contract_text : string) : OpenAI.request :=
  {| OpenAI.model := model;
     OpenAI.messages :=
       PList [ PDict [("role", PStr "system"); ("content", PStr system_prompt)];
               PDict [("role", PStr "user");
                      ("content", PStr (user_prompt contract_text))] ];
     OpenAI.temperature := PFloat "0.3";
     OpenAI.response_format := PDict [("type", PStr "json_object")] |}.

(** [response.choices[0].message.content] *)
Definition first_content (response : OpenAI.response) : result pyval :=
  match OpenAI.choices response with
  | [] => Raise (Exn IndexError "list index out of range")
  | c :: _ => Ok (OpenAI.content (OpenAI.message_of c))
  end.

(** [prefix + content] with [prefix] a [str]. *)
Definition str_add (prefix : string) (content : pyval) : result pyval :=
  match content with
  | PStr s => Ok (PStr (prefix ++ s))
  | v =>
      Raise (Exn TypeError
               ("can only concatenate str (not " ++ q (type_name v)
                ++ ") to str"))
  end.

(** [not isinstance(cons, list) or not all(isinstance(item, str) for item in cons)] *)
Definition cons_malformed (cons : pyval) : bool :=
  match cons with
  | PList items => negb (forallb is_str items)
  | _ => true
  end.

Definition cons_format_message : string :=
  "GPT response for cons was not in the expected format (list of strings).".

Section WithCollaborators.
Variable json_decode : string -> result pyval.
Variable transport : OpenAI.transport.

Definition analyze_contract_text (contract_text : string) (model : string)
  : IO (pyval * pyval) :=
  if negb (truthy (strip contract_text)) then
    ret (PStr "The provided contract text is empty.", PList [])
  else
    try_except
      (response <- acreate transport (chat_request model contract_text) ;;
       content <- lift (first_content response) ;;
       try_except
         (analysis_result <- lift (Json.loads json_decode content) ;;
          simplified_contract <-
            lift (get analysis_result "simplified_contract"
                    (PStr "Could not extract simplified contract.")) ;;
          cons <- lift (get analysis_result "cons" (PList [])) ;;
          let cons :=
            if cons_malformed cons then PList [PStr cons_format_message]
            else cons in
          ret (simplified_contract, cons))
         [ (JSONDecodeError, fun _ =>
              summary <- lift (str_add "Failed to parse GPT response as JSON. The raw response was: " content) ;;
              ret (summary, PList []));
           (AttributeError, fun _ =>
              ret (PStr "Unexpected response structure from GPT.", PList [])) ])%io
      [ (APIError, fun e =>
           print ("OpenAI API Error: " ++ str_exn e) ;;;
           ret (PStr ("OpenAI API Error: " ++ str_exn e), PList []));
        (Exception, fun e =>
           print ("Error during GPT analysis: " ++ str_exn e) ;;;
           ret (PStr ("An unexpected error occurred during analysis: "
                      ++ str_exn e), PList [])) ]%io.

End WithCollaborators.
End GptAnalyzer.

(* ================================================================== *)
(** * backend/main.py *)

Module Main.
Import Py IO.

(** What the endpoint reads of [fastapi.UploadFile]. *)
Record UploadFile : Type := {
  filename : string;
  content_type : option string;
  file : list Byte.byte
}.

(** [file.content_type == expected] *)
Definition content_type_is (f : UploadFile) (expected : string) : bool :=
  match content_type f with
  | Some t => String.eqb t expected
  | None => false
  end.

Section WithCollaborators.
(** Copying the upload to a named temporary file and reading it back. *)
Variable tmp_round_trip : list Byte.byte -> result (list Byte.byte).
Variable PdfReader : PyPDF2.PdfReader_t.
Variable json_decode : string -> result pyval.
Variable transport : OpenAI.transport.

(** The handler of [POST /analyze-contract/].  Closing the upload and
    unlinking the temporary file leave no trace in what is returned and are
    not represented. *)
Definition analyze_contract_endpoint (f : UploadFile) : IO pyval :=
  if negb (endswith (lower (filename f)) ".pdf") then
    raise (HTTPException 400
             "Invalid file type. Only PDF files are accepted.")
  else if negb (content_type_is f "application/pdf") then
    raise (HTTPException 400
             "Invalid file content type. Expected application/pdf.")
  else
    (pdf_bytes <-
       try_except (lift (tmp_round_trip (file f)))
         [ (Exception, fun e =>
              raise (HTTPException 500
                       ("Failed to save or read uploaded PDF: " ++ str_exn e))) ] ;;
     extracted_text <-
       lift (PdfProcessor.extract_text_from_pdf PdfReader pdf_bytes) ;;
     if negb (truthy (strip extracted_text)) then
       raise (HTTPException 422
                "Could not extract text from the PDF. It might be empty, image-based, or corrupted.")
     else
       analysis <-
         try_except
           (GptAnalyzer.analyze_contract_text json_decode transport
              extracted_text GptAnalyzer.default_model)
           [ (EnvironmentError, fun e =>
                raise (HTTPException 500 (str_exn e)));
             (Exception, fun e =>
                raise (HTTPException 500
                         ("Error during GPT analysis: " ++ str_exn e))) ] ;;
       let simplified_contract := fst analysis in
       let cons := snd analysis in
       if is_None simplified_contract && is_None cons then
         raise (HTTPException 500
                  "Contract analysis failed to produce a result.")
       else
         ret (PDict [ ("original_filename", PStr (filename f));
                      ("simplified_contract", simplified_contract);
                      ("cons", cons) ]))%io.

(** An HTTP response: status code and JSON body. *)
Record response : Type := { status : Z; body : pyval }.

(** How the framework answers: a returned value is encoded as JSON and is a
    200 with that body, or a plain 500 when it cannot be encoded; an
    [HTTPException] is its status code with [{"detail": detail}]; any other
    exception is a plain 500. *)
Definition respond (r : result pyval) : response :=
  match r with
  | Ok v =>
      if Json.encodable v then {| status := 200; body := v |}
      else {| status := 500; body := PStr "Internal Server Error" |}
  | Raise (HTTPException code detail) =>
      {| status := code; body := PDict [("detail", PStr detail)] |}
  | Raise (Exn _ _) =>
      {| status := 500; body := PStr "Internal Server Error" |}
  end.

(** The response to one upload, in a world with no earlier effects. *)
Definition post_analyze_contract (f : UploadFile) : response :=
  respond (fst (analyze_contract_endpoint f IO.initial)).

End WithCollaborators.

(** ["detail"] of an error body, [""] when there is none. *)
Definition detail_of (r : response) : string :=
  match body r with
  | PDict entries =>
      match lookup "detail" entries with
      | Some (PStr d) => d
      | _ => ""
      end
  | _ => ""
  end.

End Main.

(* ================================================================== *)
(** * A reference JSON decoder

    The functions above take the decoder of [json.loads] as a parameter, and
    the theorems hold for every decoder.  This one runs the model on concrete
    replies.  It follows the grammar that [json.loads] accepts (white space,
    objects, arrays, strings with escapes, numbers, [true], [false], [null],
    [NaN], [Infinity], [-Infinity]; a repeated key keeps its last value; a
    number too large for a finite float is [inf] or [-inf]).  An
    escape that names a code point from 256 on has no image in the alphabet of
    the embedding and is refused.  The message of the error is not
    reproduced. *)

Module JsonDecoder.
Import Py.

Inductive token : Type :=
| TPunct (c : ascii)
| TValue (v : pyval).

Definition is_digit (c : ascii) : bool :=
  ((48 <=? code c) && (code c <=? 57))%nat.

Definition is_ws (c : ascii) : bool :=
  ((code c =? 32) || (code c =? 9) || (code c =? 10) || (code c =? 13))%nat.

Definition is_punct (c : ascii) : bool :=
  ((code c =? 91) || (code c =? 93) || (code c =? 123) || (code c =? 125)
   || (code c =? 58) || (code c =? 44))%nat.

Definition hex_val (c : ascii) : option nat :=
  let n := code c in
  (if (48 <=? n) && (n <=? 57) then Some (n - 48)
   else if (65 <=? n) && (n <=? 70) then Some (n - 55)
   else if (97 <=? n) && (n <=? 102) then Some (n - 87)
   else None)%nat.

Definition hex4 (a b c d : ascii) : option ascii :=
  match hex_val a, hex_val b, hex_val c, hex_val d with
  | Some x, Some y, Some z, Some w =>
      let n := (((x * 16 + y) * 16 + z) * 16 + w)%nat in
      if (n <? 256)%nat then Some (ascii_of_nat n) else None
  | _, _, _, _ => None
  end.

(** The character that a one-letter escape stands for. *)
Definition simple_escape (e : ascii) : option ascii :=
  let n := code e in
  (if n =? 34 then Some "034"%char
   else if n =? 92 then Some "092"%char
   else if n =? 47 then Some "/"%char
   else if n =? 98 then Some "008"%char
   else if n =? 102 then Some "012"%char
   else if n =? 110 then Some "010"%char
   else if n =? 114 then Some "013"%char
   else if n =? 116 then Some "009"%char
   else None)%nat.

Definition push (c : ascii) (r : option (string * string))
  : option (string * string) :=
  match r with
  | Some (body, rest) => Some (String c body, rest)
  | None => None
  end.

(** The body of a string, from after its opening quote to its closing quote;
    returns the decoded body and what follows. *)
Fixpoint lex_string (s : string) : option (string * string) :=
  match s with
  | EmptyString => None
  | String c r =>
      if (code c =? 34)%nat then Some (EmptyString, r)
      else if (code c =? 92)%nat then
        match r with
        | EmptyString => None
        | String e r2 =>
            match simple_escape e with
            | Some ch => push ch (lex_string r2)
            | None =>
                if (code e =? 117)%nat then
                  match r2 with
                  | String h1 (String h2 (String h3 (String h4 r3))) =>
                      match hex4 h1 h2 h3 h4 with
                      | Some ch => push ch (lex_string r3)
                      | None => None
                      end
                  | _ => None
                  end
                else None
            end
        end
      else if (code c <? 32)%nat then None
      else push c (lex_string r)
  end.

(** The longest run of digits at the head of [s], and what follows. *)
Fixpoint take_digits (s : string) : string * string :=
  match s with
  | String c r =>
      if is_digit c then
        let '(ds, rest) := take_digits r in (String c ds, rest)
      else (EmptyString, s)
  | EmptyString => (EmptyString, EmptyString)
  end.

Fixpoint digits_value (ds : string) (acc : Z) : Z :=
  match ds with
  | EmptyString => acc
  | String c r => digits_value r (10 * acc + Z.of_nat (code c - 48))
  end.

(** The integer part [0|[1-9][0-9]*]. *)
Definition lex_int_part (s : string) : option (string * string) :=
  match s with
  | String c r =>
      if (code c =? 48)%nat then Some (String c EmptyString, r)
      else if is_digit c then Some (take_digits s)
      else None
  | EmptyString => None
  end.

(** The optional fraction [.[0-9]+]. *)
Definition lex_frac (s : string) : string * string :=
  match s with
  | String dot r =>
      if (code dot =? 46)%nat then
        match take_digits r with
        | (EmptyString, _) => (EmptyString, s)
        | (ds, rest) => (String dot ds, rest)
        end
      else (EmptyString, s)
  | EmptyString => (EmptyString, s)
  end.

(** The optional exponent [[eE][-+]?[0-9]+]. *)
Definition lex_exp (s : string) : string * string :=
  match s with
  | String e r =>
      if ((code e =? 101) || (code e =? 69))%nat then
        let '(sign, r1) :=
          match r with
          | String g r' =>
              if ((code g =? 43) || (code g =? 45))%nat
              then (String g EmptyString, r') else (EmptyString, r)
          | EmptyString => (EmptyString, r)
          end in
        match take_digits r1 with
        | (EmptyString, _) => (EmptyString, s)
        | (ds, rest) => (String e (sign ++ ds), rest)
        end
      else (EmptyString, s)
  | EmptyString => (EmptyString, s)
  end.

(** The digits of a fraction [.[0-9]+]. *)
Definition frac_digits (fp : string) : string :=
  match fp with
  | String _ ds => ds
  | EmptyString => EmptyString
  end.

(** The value of an exponent [[eE][-+]?[0-9]+], 0 when there is none. *)
Definition exp_value (ep : string) : Z :=
  match ep with
  | String _ (String g ds) =>
      if (code g =? 45)%nat then (- digits_value ds 0)%Z
      else if (code g =? 43)%nat then digits_value ds 0
      else digits_value (String g ds) 0
  | _ => 0%Z
  end.

(** Whether the decimal number rounds to a float that is not finite: it is
    at least [2^1024 - 2^970], half way between the largest float and
    [2^1024]. *)
Definition float_overflows (ip fp ep : string) : bool :=
  let m := digits_value (ip ++ frac_digits fp) 0 in
  let e := (exp_value ep - Z.of_nat (String.length (frac_digits fp)))%Z in
  let t := (2 ^ 1024 - 2 ^ 970)%Z in
  (if 0 <=? e then t <=? m * 10 ^ e else t * 10 ^ (- e) <=? m)%Z.

(** A number at the head of [s]: an [int] when it has neither fraction nor
    exponent, a [float] otherwise, [inf] or [-inf] when it is too large for
    a finite float. *)
Definition lex_number (s : string) : option (pyval * string) :=
  let '(neg, s1) :=
    match s with
    | String c r => if (code c =? 45)%nat then (true, r) else (false, s)
    | EmptyString => (false, s)
    end in
  match lex_int_part s1 with
  | None => None
  | Some (ip, s2) =>
      let '(fp, s3) := lex_frac s2 in
      let '(ep, s4) := lex_exp s3 in
      match fp, ep with
      | EmptyString, EmptyString =>
          let z := digits_value ip 0 in
          Some (PInt (if neg then (- z)%Z else z), s4)
      | _, _ =>
          if float_overflows ip fp ep
          then Some (PFloat (if neg then "-inf" else "inf"), s4)
          else Some (PFloat ((if neg then "-" else "") ++ ip ++ fp ++ ep), s4)
      end
  end.

(** [s] without the prefix [p], when it has it. *)
Fixpoint strip_prefix (p s : string) : option string :=
  match p, s with
  | EmptyString, _ => Some s
  | String a p', String b s' =>
      if Ascii.eqb a b then strip_prefix p' s' else None
  | String _ _, EmptyString => None
  end.

Definition literals : list (string * pyval) :=
  [ ("null", PNone); ("true", PBool true); ("false", PBool false);
    ("NaN", PFloat "nan"); ("Infinity", PFloat "inf");
    ("-Infinity", PFloat "-inf") ].

Fixpoint lex_literal (ls : list (string * pyval)) (s : string)
  : option (pyval * string) :=
  match ls with
  | [] => None
  | (name, v) :: rest =>
      match strip_prefix name s with
      | Some r => Some (v, r)
      | None => lex_literal rest s
      end
  end.

Fixpoint lex (fuel : nat) (s : string) : option (list token) :=
  match fuel with
  | O => None
  | S fuel' =>
      match s with
      | EmptyString => Some []
      | String c r =>
          if is_ws c then lex fuel' r
          else if is_punct c then option_map (cons (TPunct c)) (lex fuel' r)
          else if (code c =? 34)%nat then
            match lex_string r with
            | Some (body, rest) =>
                option_map (cons (TValue (PStr body))) (lex fuel' rest)
            | None => None
            end
          else
            match lex_literal literals s with
            | Some (v, rest) => option_map (cons (TValue v)) (lex fuel' rest)
            | None =>
                match lex_number s with
                | Some (v, rest) =>
                    option_map (cons (TValue v)) (lex fuel' rest)
                | None => None
                end
            end
      end
  end.

(** [d[k] = v] on the entries of a dict. *)
Fixpoint dict_set (k : string) (v : pyval) (entries : list (string * pyval))
  : list (string * pyval) :=
  match entries with
  | [] => [(k, v)]
  | (k', v') :: rest =>
      if String.eqb k' k then (k', v) :: rest
      else (k', v') :: dict_set k v rest
  end.

Definition is_tok (c : nat) (t : token) : bool :=
  match t with
  | TPunct p => (code p =? c)%nat
  | TValue _ => false
  end.

Fixpoint parse_value (fuel : nat) (ts : list token)
  : option (pyval * list token) :=
  match fuel with
  | O => None
  | S fuel' =>
      match ts with
      | TValue v :: r => Some (v, r)
      | TPunct p :: r =>
          if (code p =? 91)%nat then
            match r with
            | t :: r' =>
                if is_tok 93 t then Some (PList [], r')
                else parse_items fuel' r []
            | [] => None
            end
          else if (code p =? 123)%nat then
            match r with
            | t :: r' =>
                if is_tok 125 t then Some (PDict [], r')
                else parse_members fuel' r []
            | [] => None
            end
          else None
      | [] => None
      end
  end
with parse_items (fuel : nat) (ts : list token) (acc : list pyval)
  : option (pyval * list token) :=
  match fuel with
  | O => None
  | S fuel' =>
      match parse_value fuel' ts with
      | Some (v, t :: r) =>
          if is_tok 44 t then parse_items fuel' r (acc ++ [v])%list
          else if is_tok 93 t then Some (PList (acc ++ [v])%list, r)
          else None
      | _ => None
      end
  end
with parse_members (fuel : nat) (ts : list token)
  (acc : list (string * pyval)) : option (pyval * list token) :=
  match fuel with
  | O => None
  | S fuel' =>
      match ts with
      | TValue (PStr k) :: colon :: r =>
          if is_tok 58 colon then
            match parse_value fuel' r with
            | Some (v, t :: r') =>
                if is_tok 44 t then parse_members fuel' r' (dict_set k v acc)
                else if is_tok 125 t then Some (PDict (dict_set k v acc), r')
                else None
            | _ => None
            end
          else None
      | _ => None
      end
  end.

Definition decode_error : exn := Exn JSONDecodeError "Expecting value".

Definition decode (s : string) : result pyval :=
  match lex (S (String.length s)) s with
  | None => Raise decode_error
  | Some ts =>
      match parse_value (2 * List.length ts + 2) ts with
      | Some (v, []) => Ok v
      | _ => Raise decode_error
      end
  end.

End JsonDecoder.

(* ================================================================== *)
(** * Concrete collaborators and replies, for running the model *)

Module Samples.
Import Py.

(** A reply whose first choice carries [content]. *)
Definition reply (content : pyval) : OpenAI.response :=
  {| OpenAI.choices :=
       [ {| OpenAI.message_of := {| OpenAI.content := content |} |} ] |}.

(** A transport that answers every request with [content]. *)
Definition replies_with (content : pyval) : OpenAI.transport :=
  fun _ => Ok (reply content).

(** A transport whose every call raises [e]. *)
Definition raises (e : exn) : OpenAI.transport :=
  fun _ => Raise e.

Definition q (s : string) : string := quote ++ s ++ quote.

(** [{"simplified_contract": <summary>, "cons": <cons>}], both given as JSON
    text. *)
Definition reply_json (summary cons : string) : string :=
  "{" ++ q "simplified_contract" ++ ": " ++ summary ++ ", "
  ++ q "cons" ++ ": " ++ cons ++ "}".

(** A document of the given pages, each page yielding its entry. *)
Definition document (pages : list (option string)) : PyPDF2.reader :=
  {| PyPDF2.num_pages := Ok (List.length pages);
     PyPDF2.get_page := fun i =>
       match nth_error pages i with
       | Some t => Ok {| PyPDF2.extract_text := Ok t |}
       | None => Raise (Exn IndexError "sequence index out of range")
       end |}.

(** A reader that refuses every byte sequence. *)
Definition no_reader : PyPDF2.PdfReader_t :=
  fun _ => Raise (Exn PdfReadError "EOF marker not found").

(** A reader that reads every byte sequence as the given pages. *)
Definition reads_as (pages : list (option string)) : PyPDF2.PdfReader_t :=
  fun _ => Ok (document pages).

(** A temporary file that gives back what was written. *)
Definition tmp_ok : list Byte.byte -> result (list Byte.byte) :=
  fun b => Ok b.

Definition upload (name : string) (ctype : string) : Main.UploadFile :=
  {| Main.filename := name;
     Main.content_type := Some ctype;
     Main.file := [] |}.

End Samples.

(* ================================================================== *)
(** * Vocabulary of the specification

    Notions that the specification uses to describe inputs and results,
    written from its words and independent of the code. *)

Module Spec.
Import Py.

(** The text a page contributes: its text, or nothing when it yields none. *)
Definition page_text (t : option string) : string :=
  match t with
  | Some s => s
  | None => ""
  end.

(** [t1 + t2 + ... + tN] *)
Definition concat_texts (ts : list string) : string :=
  fold_right append "" ts.

(** Page [i] of the reader cannot be obtained or its text cannot be
    extracted. *)
Definition page_raises (r : PyPDF2.reader) (i : nat) : Prop :=
  (exists e, PyPDF2.get_page r i = Raise e) \/
  (exists pg e, PyPDF2.get_page r i = Ok pg /\ PyPDF2.extract_text pg = Raise e).

(** The bytes cannot be parsed as a document: the reader refuses them, or
    fails to count the pages, or fails on one of the pages. *)
Inductive unreadable (PdfReader : PyPDF2.PdfReader_t) (b : list Byte.byte)
  : Prop :=
| reader_fails (e : exn) :
    PdfReader b = Raise e -> unreadable PdfReader b
| count_fails (r : PyPDF2.reader) (e : exn) :
    PdfReader b = Ok r -> PyPDF2.num_pages r = Raise e ->
    unreadable PdfReader b
| page_fails (r : PyPDF2.reader) (n i : nat) :
    PdfReader b = Ok r -> PyPDF2.num_pages r = Ok n -> i < n ->
    page_raises r i -> unreadable PdfReader b.

(** The reader has exactly the pages [texts], in page order: page [i]
    yields the [i]-th entry ([None] when it yields no text). *)
Definition yields (r : PyPDF2.reader) (texts : list (option string)) : Prop :=
  PyPDF2.num_pages r = Ok (List.length texts) /\
  forall i t, nth_error texts i = Some t ->
    exists pg, PyPDF2.get_page r i = Ok pg /\ PyPDF2.extract_text pg = Ok t.

(** A list of strings. *)
Definition list_of_str (v : pyval) : Prop :=
  exists ss : list string, v = PList (map PStr ss).

(** The letter-case variants of [.pdf]. *)
Definition pdf_extensions : list string :=
  [ ".pdf"; ".pdF"; ".pDf"; ".pDF"; ".Pdf"; ".PdF"; ".PDf"; ".PDF" ].

End Spec.

(* ================================================================== *)
(** * backend/gpt_analyzer.py: the credential check at import *)

Module Startup.
Import Py.

(** The statements that run when the module is imported, over [os.getenv]:
    the key that [openai.api_key] is set to, or the exception raised. *)
Definition import_gpt_analyzer (getenv : string -> option string)
  : result string :=
  let api_key := getenv "OPENAI_API_KEY" in
  match api_key with
  | Some k =>
      if negb (truthy k) then
        Raise (Exn EnvironmentError
                 "OPENAI_API_KEY environment variable not set.")
      else Ok k
  | None =>
      Raise (Exn EnvironmentError
               "OPENAI_API_KEY environment variable not set.")
  end.

End Startup.

(* ================================================================== *)
(** * backend/pdf_processor.py: the script run as a program *)

Module PdfScript.
Import Py IO.

Definition FileNotFoundError : exn_class :=
  Other "FileNotFoundError" [OSError].

(** [text[:500] + "..." if len(text) > 500 else text] *)
Definition preview (extracted_text : string) : string :=
  if (500 <? String.length extracted_text)%nat
  then substring 0 500 extracted_text ++ "..."
  else extracted_text.

Section WithCollaborators.
(** Opening [sample.pdf] and reading it. *)
Variable read_sample : result (list Byte.byte).
Variable PdfReader : PyPDF2.PdfReader_t.

Definition main : IO unit :=
  try_except
    (pdf_bytes <- lift read_sample ;;
     match pdf_bytes with
     | _ :: _ =>
         extracted_text <-
           lift (PdfProcessor.extract_text_from_pdf PdfReader pdf_bytes) ;;
         if truthy extracted_text then
           print "Successfully extracted text:" ;;;
           print (preview extracted_text)
         else
           print "Could not extract text from PDF or PDF is empty/invalid."
     | [] => print "Sample PDF is empty."
     end)%io
    [ (FileNotFoundError, fun _ =>
         print "Error: sample.pdf not found. Please place a sample PDF in the backend directory for testing.");
      (Exception, fun e => print ("An error occurred: " ++ str_exn e)) ].

End WithCollaborators.
End PdfScript.

(* ================================================================== *)
(** * backend/main.py: the handler over the two functions it imports

    The handler calls [extract_text_from_pdf] and [analyze_contract_text]
    through the names imported into the module, which the test suite
    replaces.  Here they are parameters; [Main.analyze_contract_endpoint] is
    the instance at the functions of the repository. *)

Module Handler.
Import Py IO.

Section WithImports.
Variable tmp_round_trip : list Byte.byte -> result (list Byte.byte).
Variable extract_text_from_pdf : list Byte.byte -> result string.
Variable analyze_contract_text : string -> IO (pyval * pyval).

Definition analyze_contract_endpoint (f : Main.UploadFile) : IO pyval :=
  if negb (endswith (lower (Main.filename f)) ".pdf") then
    raise (HTTPException 400
             "Invalid file type. Only PDF files are accepted.")
  else if negb (Main.content_type_is f "application/pdf") then
    raise (HTTPException 400
             "Invalid file content type. Expected application/pdf.")
  else
    (pdf_bytes <-
       try_except (lift (tmp_round_trip (Main.file f)))
         [ (Exception, fun e =>
              raise (HTTPException 500
                       ("Failed to save or read uploaded PDF: " ++ str_exn e))) ] ;;
     extracted_text <- lift (extract_text_from_pdf pdf_bytes) ;;
     if negb (truthy (strip extracted_text)) then
       raise (HTTPException 422
                "Could not extract text from the PDF. It might be empty, image-based, or corrupted.")
     else
       analysis <-
         try_except
           (analyze_contract_text extracted_text)
           [ (EnvironmentError, fun e =>
                raise (HTTPException 500 (str_exn e)));
             (Exception, fun e =>
                raise (HTTPException 500
                         ("Error during GPT analysis: " ++ str_exn e))) ] ;;
       let simplified_contract := fst analysis in
       let cons := snd analysis in
       if is_None simplified_contract && is_None cons then
         raise (HTTPException 500
                  "Contract analysis failed to produce a result.")
       else
         ret (PDict [ ("original_filename", PStr (Main.filename f));
                      ("simplified_contract", simplified_contract);
                      ("cons", cons) ]))%io.

End WithImports.
End Handler.

(** More collaborators for running the model. *)
Module Samples2.
Import Py.

(** [openai.error.AuthenticationError], an [OpenAIError]. *)
Definition AuthenticationError : exn_class :=
  Other "AuthenticationError" [Other "OpenAIError" []].


(** An environment that holds the given variables. *)
Fixpoint environ (vars : list (string * string)) (name : string)
  : option string :=
  match vars with
  | [] => None
  | (n, v) :: rest => if String.eqb n name then Some v else environ rest name
  end.








(** An analysis function that raises. *)
Definition fails (e : exn) : string -> IO.IO (pyval * pyval) :=
  fun _ => IO.raise e.

(** An extraction function that returns the given text. *)
Definition extracts (text : string) : list Byte.byte -> result string :=
  fun _ => Ok text.

(** A temporary file that cannot be written. *)
Definition tmp_fails (e : exn) : list Byte.byte -> result (list Byte.byte) :=
  fun _ => Raise e.

(** A document whose second page cannot be read. *)
Definition broken_document : PyPDF2.reader :=
  {| PyPDF2.num_pages := Ok 2;
     PyPDF2.get_page := fun i =>
       match i with
       | O => Ok {| PyPDF2.extract_text := Ok (Some "Page one.") |}
       | _ => Raise (Exn PdfReadError "Invalid object")
       end |}.

End Samples2.

(* ================================================================== *)
(** * Facts about the string methods *)

Section StringFacts.
Import Py.

Lemma lstrip_all_space (s : string) :
  all_space s = true -> lstrip s = "".
Proof.
  induction s as [|c s IH]; simpl; intro H; [reflexivity|].
  apply andb_true_iff in H as [Hc Hs].
  rewrite Hc. now apply IH.
Qed.

Lemma all_space_lstrip (s : string) :
  all_space (lstrip s) = true -> all_space s = true.
Proof.
  induction s as [|c s IH]; simpl; [easy|].
  destruct (isspace c) eqn:Hc; simpl.
  - exact IH.
  - rewrite Hc. discriminate.
Qed.

Lemma rstrip_empty (s : string) :
  rstrip s = "" -> all_space s = true.
Proof.
  induction s as [|c s IH]; simpl; [easy|].
  destruct (rstrip s) as [|d r].
  - destruct (isspace c); [intros _; now rewrite IH | discriminate].
  - discriminate.
Qed.

(** [not s.strip()] holds exactly of the strings made of white space. *)
Lemma strip_empty_iff (s : string) :
  truthy (strip s) = false <-> all_space s = true.
Proof.
  unfold strip. split.
  - intro H. apply all_space_lstrip, rstrip_empty.
    destruct (rstrip (lstrip s)); [reflexivity | discriminate].
  - intro H. now rewrite (lstrip_all_space s H).
Qed.

Lemma strip_nonempty_iff (s : string) :
  truthy (strip s) = true <-> all_space s = false.
Proof.
  pose proof (strip_empty_iff s) as [H1 H2].
  destruct (truthy (strip s)), (all_space s); split; intro; auto;
    try discriminate; symmetry; auto.
Qed.

Lemma lower_app (a b : string) : lower (a ++ b) = lower a ++ lower b.
Proof.
  induction a as [|c a IH]; simpl; [reflexivity | now rewrite IH].
Qed.

Lemma endswith_app (p suffix : string) : endswith (p ++ suffix) suffix = true.
Proof.
  induction p as [|c p IH]; simpl.
  - destruct suffix; simpl.
    + reflexivity.
    + now rewrite Ascii.eqb_refl, String.eqb_refl.
  - rewrite IH. apply orb_true_r.
Qed.

Lemma endswith_split (s suffix : string) :
  endswith s suffix = true -> exists p, s = p ++ suffix.
Proof.
  induction s as [|c s IH]; cbn [endswith]; intro H.
  - rewrite orb_false_r in H. apply String.eqb_eq in H. now exists "".
  - apply orb_true_iff in H as [H|H].
    + apply String.eqb_eq in H. now exists "".
    + destruct (IH H) as [p ->]. now exists (String c p).
Qed.

Lemma prefix_app (d r : string) : String.prefix d (d ++ r) = true.
Proof.
  induction d as [|c d IH]; simpl.
  - now destruct r.
  - destruct (ascii_dec c c); [exact IH | contradiction].
Qed.

Lemma contains_prefix (d h : string) :
  String.prefix d h = true -> contains d h = true.
Proof.
  intro H. destruct h; cbn [contains]; now rewrite H.
Qed.

(** What is built around [d] contains [d]. *)
Lemma contains_app (d l r : string) : contains d (l ++ d ++ r) = true.
Proof.
  induction l as [|c l IH].
  - cbn [append]. apply contains_prefix, prefix_app.
  - change (String c l ++ d ++ r) with (String c (l ++ d ++ r)).
    cbn [contains]. rewrite IH. apply orb_true_r.
Qed.

Lemma contains_suffix (d l : string) : contains d (l ++ d) = true.
Proof.
  replace (l ++ d) with (l ++ d ++ "").
  - apply contains_app.
  - f_equal. induction d; simpl; congruence.
Qed.

Lemma isinstance_Exception (e : exn) : isinstance e Exception = true.
Proof.
  destruct e as [c m|code d]; [destruct c|]; reflexivity.
Qed.

End StringFacts.

(* ================================================================== *)
(** * backend/pdf_processor.py: text extraction *)

Section PdfProcessorFacts.
Import Py.
Variable PdfReader : PyPDF2.PdfReader_t.

Lemma append_empty_r (s : string) : s ++ "" = s.
Proof. induction s; simpl; congruence. Qed.

Lemma append_assoc (a b c : string) : (a ++ b) ++ c = a ++ b ++ c.
Proof. induction a; simpl; congruence. Qed.

Lemma or_empty_page_text (t : option string) :
  PdfProcessor.or_empty t = Spec.page_text t.
Proof. destruct t as [[|c r]|]; reflexivity. Qed.

(** Both handlers of the function return the empty string, and between them
    they catch every exception. *)
Lemma handlers_catch_all (e : exn) :
  IO.try_except_pure (A := string) (Raise e)
    [ (PdfReadError, fun _ => Ok ""); (Exception, fun _ => Ok "") ] = Ok "".
Proof.
  unfold IO.try_except_pure. cbn [IO.select].
  destruct (isinstance e PdfReadError); [reflexivity|].
  now rewrite isinstance_Exception.
Qed.

(** The loop over pages [k, k+1, ...] that yield [ts] appends their texts to
    what was gathered. *)
Lemma for_page_num_yields (r : PyPDF2.reader) (ts : list (option string)) :
  forall (k : nat) (acc : string),
    (forall i t, nth_error ts i = Some t ->
       exists pg, PyPDF2.get_page r (k + i) = Ok pg
                  /\ PyPDF2.extract_text pg = Ok t) ->
    PdfProcessor.for_page_num r (seq k (List.length ts)) acc
    = Ok (acc ++ Spec.concat_texts (map Spec.page_text ts)).
Proof.
  induction ts as [|t ts IH]; intros k acc H; simpl.
  - now rewrite append_empty_r.
  - destruct (H 0 t eq_refl) as (pg & Hpg & Ht).
    rewrite Nat.add_0_r in Hpg. rewrite Hpg. simpl. rewrite Ht. simpl.
    rewrite IH.
    + now rewrite or_empty_page_text, append_assoc.
    + intros i u Hi. specialize (H (S i) u Hi).
      now rewrite Nat.add_succ_r in H.
Qed.

(** The loop raises as soon as one of its pages does. *)
Lemma for_page_num_raises (r : PyPDF2.reader) (i : nat) :
  Spec.page_raises r i ->
  forall (page_nums : list nat) (acc : string),
    In i page_nums ->
    exists e, PdfProcessor.for_page_num r page_nums acc = Raise e.
Proof.
  intros Hi page_nums.
  induction page_nums as [|j rest IH]; intros acc Hin; [destruct Hin|].
  simpl. destruct (PyPDF2.get_page r j) as [pg|e] eqn:Hj; simpl;
    [|now exists e].
  destruct (PyPDF2.extract_text pg) as [t|e] eqn:Ht; simpl; [|now exists e].
  destruct Hin as [->|Hin]; [|now apply IH].
  destruct Hi as [(e & He)|(pg' & e & Hg & He)]; congruence.
Qed.

(** Extraction never raises. *)
Lemma extract_text_from_pdf_total (b : list Byte.byte) :
  exists text, PdfProcessor.extract_text_from_pdf PdfReader b = Ok text.
Proof.
  unfold PdfProcessor.extract_text_from_pdf.
  match goal with |- context [IO.try_except_pure ?m _] => destruct m as [t|e] end.
  - now exists t.
  - exists "". apply handlers_catch_all.
Qed.

(** C7. For every byte sequence that cannot be parsed as a document (the
    reader refuses it, the pages cannot be counted, or a page cannot be
    read), [extract_text_from_pdf] returns the empty string and does not
    raise. *)
Theorem extract_text_from_pdf_unreadable (b : list Byte.byte) :
  Spec.unreadable PdfReader b ->
  PdfProcessor.extract_text_from_pdf PdfReader b = Ok "".
Proof.
  intros [e He | r e Hr He | r n i Hr Hn Hi Hp];
    unfold PdfProcessor.extract_text_from_pdf.
  - rewrite He. apply handlers_catch_all.
  - rewrite Hr. simpl. rewrite He. apply handlers_catch_all.
  - rewrite Hr. simpl. rewrite Hn. simpl.
    destruct (for_page_num_raises r i Hp (seq 0 n) "") as [e He].
    + apply in_seq. lia.
    + rewrite He. apply handlers_catch_all.
Qed.

(** C8. For every document whose N pages yield the texts t1 ... tN in page
    order, [extract_text_from_pdf] returns t1 + t2 + ... + tN, a page that
    yields no text contributing the empty string. *)
Theorem extract_text_from_pdf_concat (b : list Byte.byte)
  (r : PyPDF2.reader) (texts : list (option string)) :
  PdfReader b = Ok r ->
  Spec.yields r texts ->
  PdfProcessor.extract_text_from_pdf PdfReader b
  = Ok (Spec.concat_texts (map Spec.page_text texts)).
Proof.
  intros Hr [Hn Hp]. unfold PdfProcessor.extract_text_from_pdf.
  rewrite Hr. simpl. rewrite Hn. simpl.
  now rewrite (for_page_num_yields r texts 0 "" Hp).
Qed.

End PdfProcessorFacts.

Lemma extract_text_from_pdf_unreadable_witness :
  Spec.unreadable Samples.no_reader [] /\
  PdfProcessor.extract_text_from_pdf Samples.no_reader [] = Py.Ok "".
Proof.
  assert (H : Spec.unreadable Samples.no_reader []).
  { apply (Spec.reader_fails _ _ (Py.Exn Py.PdfReadError "EOF marker not found")).
    reflexivity. }
  split; [exact H|].
  exact (extract_text_from_pdf_unreadable Samples.no_reader [] H).
Defined.

Lemma extract_text_from_pdf_concat_witness :
  PdfProcessor.extract_text_from_pdf
    (Samples.reads_as [Some "Page one. "; None; Some "Page three."]) []
  = Py.Ok "Page one. Page three.".
Proof.
  apply (extract_text_from_pdf_concat
           (Samples.reads_as [Some "Page one. "; None; Some "Page three."]) []
           (Samples.document [Some "Page one. "; None; Some "Page three."])
           [Some "Page one. "; None; Some "Page three."]).
  - reflexivity.
  - split; [reflexivity|].
    intros i t Hi. simpl. rewrite Hi. eexists. split; reflexivity.
Defined.

(* ================================================================== *)
(** * backend/gpt_analyzer.py: contract analysis *)

Ltac outer_catch e :=
  cbn [IO.select]; destruct (Py.isinstance e Py.APIError);
  [|rewrite isinstance_Exception]; now eexists _, _, _.

Ltac run_io :=
  unfold GptAnalyzer.analyze_contract_text, IO.try_except, IO.bind,
    IO.acreate, IO.lift, IO.ret, IO.print; cbn [negb fst snd].

Section GptAnalyzerFacts.
Import Py IO.
Variable json_decode : string -> result pyval.
Variable transport : OpenAI.transport.

(** The code's test on [cons] accepts exactly the lists of strings. *)
Lemma cons_malformed_false_iff (v : pyval) :
  GptAnalyzer.cons_malformed v = false <-> Spec.list_of_str v.
Proof.
  split.
  - destruct v as [| | | | |items|]; simpl; try discriminate.
    intro H. apply negb_false_iff in H.
    induction items as [|x items IH].
    + now exists [].
    + simpl in H. apply andb_true_iff in H as [Hx Hr].
      destruct x; try discriminate.
      destruct (IH Hr) as [ss Hss]. injection Hss as ->.
      now exists (s :: ss).
  - intros [ss ->]. simpl. apply negb_false_iff.
    induction ss; simpl; auto.
Qed.

Lemma cons_malformed_true_iff (v : pyval) :
  GptAnalyzer.cons_malformed v = true <-> ~ Spec.list_of_str v.
Proof.
  rewrite <- cons_malformed_false_iff.
  destruct (GptAnalyzer.cons_malformed v); split; congruence.
Qed.

(** On every path the analysis returns a pair whose second component is a
    list of strings; it never raises, whatever the transport and the decoder
    do. *)
Lemma analyze_contract_text_total (contract_text model : string) (w : world) :
  exists summary cons w',
    GptAnalyzer.analyze_contract_text json_decode transport
      contract_text model w = (Ok (summary, PList cons), w')
    /\ forallb is_str cons = true.
Proof.
  run_io.
  destruct (truthy (strip contract_text)); cbn [negb].
  2:{ now eexists _, _, _. }
  destruct (transport _) as [resp|e]; [|outer_catch e].
  destruct (GptAnalyzer.first_content resp) as [content|e]; [|outer_catch e].
  destruct content as [| | | | s | |];
    try (cbn; now eexists _, _, _).
  cbn [Json.loads].
  destruct (json_decode s) as [v|e].
  - destruct v as [| | | | | |d]; try (cbn; now eexists _, _, _).
    cbn [get select].
    destruct (lookup "cons" d) as [v|].
    + destruct (GptAnalyzer.cons_malformed v) eqn:Hv.
      * now eexists _, _, _.
      * destruct v; try discriminate. simpl in Hv.
        apply negb_false_iff in Hv. now eexists _, _, _.
    + cbn. now eexists _, _, _.
  - cbn [select]. destruct (isinstance e JSONDecodeError).
    + cbn. now eexists _, _, _.
    + destruct (isinstance e AttributeError).
      * now eexists _, _, _.
      * outer_catch e.
Qed.

(** The summary is a string on every path but one: when it is not, the reply
    decoded to an object, and the summary is the value that object holds
    under [simplified_contract]. *)
Lemma analyze_contract_text_summary_str
  (contract_text model : string) (w w' : world) (summary cons : pyval) :
  GptAnalyzer.analyze_contract_text json_decode transport
    contract_text model w = (Ok (summary, cons), w') ->
  is_str summary = false ->
  exists resp raw d,
    transport (GptAnalyzer.chat_request model contract_text) = Ok resp
    /\ GptAnalyzer.first_content resp = Ok (PStr raw)
    /\ json_decode raw = Ok (PDict d)
    /\ lookup "simplified_contract" d = Some summary.
Proof.
  run_io.
  destruct (truthy (strip contract_text)); cbn [negb].
  2:{ intros [= <- _ _]. discriminate. }
  destruct (transport _) as [resp|e].
  2:{ cbn [select]. destruct (isinstance e APIError);
        [|rewrite isinstance_Exception]; intros [= <- _ _]; discriminate. }
  destruct (GptAnalyzer.first_content resp) as [content|e] eqn:Hc.
  2:{ cbn [select]. destruct (isinstance e APIError);
        [|rewrite isinstance_Exception]; intros [= <- _ _]; discriminate. }
  destruct content as [| | | | raw | |];
    try (cbn; intros [= <- _ _]; discriminate).
  cbn [Json.loads].
  destruct (json_decode raw) as [v|e] eqn:Hd.
  - destruct v as [| | | | | |d]; try (cbn; intros [= <- _ _]; discriminate).
    cbn [get].
    destruct (lookup "simplified_contract" d) as [v|] eqn:Hv.
    + intros [= <- _ _] _. now exists resp, raw, d.
    + intros [= <- _ _]. discriminate.
  - cbn [select]. destruct (isinstance e JSONDecodeError).
    + cbn. intros [= <- _ _]. discriminate.
    + destruct (isinstance e AttributeError).
      * intros [= <- _ _]. discriminate.
      * cbn [select]. destruct (isinstance e APIError);
          [|rewrite isinstance_Exception]; intros [= <- _ _]; discriminate.
Qed.

(** The result for a reply that decodes to an object: the two fields are
    read with their defaults, and [cons] is replaced when it is not a list of
    strings.  One request is sent. *)
Lemma analyze_contract_text_decoded
  (contract_text model : string) (w : world)
  (resp : OpenAI.response) (raw : string) (d : list (string * pyval)) :
  all_space contract_text = false ->
  transport (GptAnalyzer.chat_request model contract_text) = Ok resp ->
  GptAnalyzer.first_content resp = Ok (PStr raw) ->
  json_decode raw = Ok (PDict d) ->
  GptAnalyzer.analyze_contract_text json_decode transport
    contract_text model w
  = (Ok (match lookup "simplified_contract" d with
         | Some v => v
         | None => PStr "Could not extract simplified contract."
         end,
         let cons := match lookup "cons" d with
                     | Some v => v
                     | None => PList []
                     end in
         if GptAnalyzer.cons_malformed cons
         then PList [PStr GptAnalyzer.cons_format_message] else cons),
     {| calls := (calls w
                  ++ [GptAnalyzer.chat_request model contract_text])%list;
        stdout := stdout w |}).
Proof.
  intros Hs Ht Hc Hd. apply strip_nonempty_iff in Hs.
  run_io. rewrite Hs, Ht. cbn [negb]. rewrite Hc. cbn [Json.loads].
  rewrite Hd. reflexivity.
Qed.


(** C2. For every text that is empty or made of white space only, the
    analysis returns the fixed summary and no cons, and leaves the world as it
    found it: no request is sent, whatever the transport. *)
Theorem analyze_contract_text_empty (contract_text model : string) (w : world) :
  all_space contract_text = true ->
  GptAnalyzer.analyze_contract_text json_decode transport
    contract_text model w
  = (Ok (PStr "The provided contract text is empty.", PList []), w).
Proof.
  intro H. apply strip_empty_iff in H.
  unfold GptAnalyzer.analyze_contract_text. now rewrite H.
Qed.

(** C3. When the transport call raises, the analysis catches the exception
    and returns a summary that contains its description, with no cons. *)
Theorem analyze_contract_text_transport_error
  (contract_text model : string) (w : world) (e : exn) :
  all_space contract_text = false ->
  transport (GptAnalyzer.chat_request model contract_text) = Raise e ->
  exists summary,
    fst (GptAnalyzer.analyze_contract_text json_decode transport
           contract_text model w) = Ok (PStr summary, PList [])
    /\ contains (str_exn e) summary = true.
Proof.
  intros Hs He. apply strip_nonempty_iff in Hs.
  run_io. rewrite Hs, He. cbn [negb select].
  destruct (isinstance e APIError); [|rewrite isinstance_Exception];
    cbn [fst]; eexists; (split; [reflexivity | apply contains_suffix]).
Qed.


(** C5. When the reply decodes to an object whose cons field is not a list
    of strings, the analysis returns a cons list of exactly one fixed
    explanatory string. *)
Theorem analyze_contract_text_malformed_cons
  (contract_text model : string) (w : world)
  (resp : OpenAI.response) (raw : string)
  (d : list (string * pyval)) (v : pyval) :
  all_space contract_text = false ->
  transport (GptAnalyzer.chat_request model contract_text) = Ok resp ->
  GptAnalyzer.first_content resp = Ok (PStr raw) ->
  json_decode raw = Ok (PDict d) ->
  lookup "cons" d = Some v ->
  ~ Spec.list_of_str v ->
  exists summary,
    fst (GptAnalyzer.analyze_contract_text json_decode transport
           contract_text model w)
    = Ok (summary, PList [PStr GptAnalyzer.cons_format_message]).
Proof.
  intros Hs Ht Hc Hd Hv Hbad. apply cons_malformed_true_iff in Hbad.
  rewrite (analyze_contract_text_decoded _ _ w resp raw d Hs Ht Hc Hd).
  cbn [fst]. rewrite Hv. cbn zeta. rewrite Hbad. now eexists.
Qed.

(** C6. When the reply decodes to an object with a string under
    [simplified_contract] and a list of strings under [cons], the analysis
    returns exactly those two values. *)
Theorem analyze_contract_text_well_formed
  (contract_text model : string) (w : world)
  (resp : OpenAI.response) (raw : string)
  (d : list (string * pyval)) (summary : string) (cons : list string) :
  all_space contract_text = false ->
  transport (GptAnalyzer.chat_request model contract_text) = Ok resp ->
  GptAnalyzer.first_content resp = Ok (PStr raw) ->
  json_decode raw = Ok (PDict d) ->
  lookup "simplified_contract" d = Some (PStr summary) ->
  lookup "cons" d = Some (PList (map PStr cons)) ->
  fst (GptAnalyzer.analyze_contract_text json_decode transport
         contract_text model w)
  = Ok (PStr summary, PList (map PStr cons)).
Proof.
  intros Hs Ht Hc Hd Hsum Hcons.
  assert (Hgood : GptAnalyzer.cons_malformed (PList (map PStr cons)) = false).
  { apply cons_malformed_false_iff. now exists cons. }
  rewrite (analyze_contract_text_decoded _ _ w resp raw d Hs Ht Hc Hd).
  cbn [fst]. rewrite Hsum, Hcons. cbn zeta. now rewrite Hgood.
Qed.

End GptAnalyzerFacts.

(* ================================================================== *)
(** * backend/main.py: the endpoint *)

Ltac run_endpoint :=
  unfold Main.post_analyze_contract, Main.analyze_contract_endpoint,
    IO.try_except, IO.bind, IO.lift, IO.raise, IO.ret;
  cbn [negb fst snd].

Section MainFacts.
Import Py IO.
Variable tmp_round_trip : list Byte.byte -> result (list Byte.byte).
Variable PdfReader : PyPDF2.PdfReader_t.
Variable json_decode : string -> result pyval.
Variable transport : OpenAI.transport.

Lemma content_type_is_iff (f : Main.UploadFile) (t : string) :
  Main.content_type_is f t = true <-> Main.content_type f = Some t.
Proof.
  unfold Main.content_type_is. destruct (Main.content_type f) as [u|].
  - rewrite String.eqb_eq. split; congruence.
  - split; discriminate.
Qed.

Lemma content_type_is_false (f : Main.UploadFile) (t : string) :
  Main.content_type f <> Some t -> Main.content_type_is f t = false.
Proof.
  intro H. destruct (Main.content_type_is f t) eqn:E; [|reflexivity].
  now apply content_type_is_iff in E.
Qed.

(** Every letter-case variant of [.pdf] passes the test on the file name. *)
Lemma pdf_extension_accepted (stem ext : string) :
  In ext Spec.pdf_extensions ->
  endswith (lower (stem ++ ext)) ".pdf" = true.
Proof.
  intro H. rewrite lower_app.
  assert (E : lower ext = ".pdf").
  { simpl in H. repeat (destruct H as [<-|H]; [reflexivity|]). destruct H. }
  rewrite E. apply endswith_app.
Qed.

(** Once the file name has passed, the handler never raises the file-type
    rejection. *)
Lemma endpoint_past_file_type (f : Main.UploadFile) (w : world) :
  endswith (lower (Main.filename f)) ".pdf" = true ->
  fst (Main.analyze_contract_endpoint tmp_round_trip PdfReader json_decode
         transport f w)
  <> Raise (HTTPException 400
              "Invalid file type. Only PDF files are accepted.").
Proof.
  intro Hname. run_endpoint. rewrite Hname. cbn [negb].
  destruct (Main.content_type_is f "application/pdf"); cbn [negb fst];
    [|discriminate].
  destruct (tmp_round_trip (Main.file f)) as [b|e].
  2:{ cbn [select]. rewrite isinstance_Exception. cbn [fst]. discriminate. }
  destruct (extract_text_from_pdf_total PdfReader b) as [text ->].
  destruct (truthy (strip text)); cbn [negb fst]; [|discriminate].
  destruct (analyze_contract_text_total json_decode transport text
              GptAnalyzer.default_model w) as (s & c & w' & -> & _).
  cbn [fst snd is_None andb]. rewrite andb_false_r. cbn [fst]. discriminate.
Qed.

(** C10. The test on the file name ignores letter case: an upload whose name
    ends in any letter-case variant of [.pdf] passes it, and the response is
    not the file-type rejection. *)
Theorem analyze_contract_endpoint_case_insensitive
  (f : Main.UploadFile) (stem ext : string) :
  In ext Spec.pdf_extensions ->
  Main.filename f = stem ++ ext ->
  endswith (lower (Main.filename f)) ".pdf" = true /\
  Main.post_analyze_contract tmp_round_trip PdfReader json_decode transport f
  <> {| Main.status := 400;
        Main.body :=
          PDict [("detail",
                  PStr "Invalid file type. Only PDF files are accepted.")] |}.
Proof.
  intros Hext Hname.
  assert (Hpass : endswith (lower (Main.filename f)) ".pdf" = true).
  { rewrite Hname. now apply pdf_extension_accepted. }
  split; [exact Hpass|].
  pose proof (endpoint_past_file_type f IO.initial Hpass) as Hne.
  unfold Main.post_analyze_contract.
  destruct (fst (Main.analyze_contract_endpoint tmp_round_trip PdfReader
                   json_decode transport f IO.initial)) as [v|[c m|code d]];
    cbn [Main.respond]; intro E.
  - destruct (Json.encodable v); discriminate E.
  - discriminate E.
  - injection E as -> ->. now apply Hne.
Qed.

(** C9.  The four outcomes of the endpoint, in the order of its
    checks: a file name that does not end in [.pdf] (letter case ignored) is
    a 400 "Invalid file type"; past that check, a content type other than
    [application/pdf] is a 400 "Invalid file content type"; past both checks
    and with the upload saved and read back, extracted text that is empty or
    white space is a 422; and extracted text with a well-formed reply
    [{"simplified_contract": X, "cons": [Y]}] is a 200 whose body carries the
    file name, [X] and [[Y]]. *)
Theorem analyze_contract_endpoint_outcomes (f : Main.UploadFile) :
  let r := Main.post_analyze_contract tmp_round_trip PdfReader json_decode
             transport f in
  (endswith (lower (Main.filename f)) ".pdf" = false ->
   Main.status r = 400%Z
   /\ contains "Invalid file type" (Main.detail_of r) = true)
  /\
  (endswith (lower (Main.filename f)) ".pdf" = true ->
   Main.content_type f <> Some "application/pdf" ->
   Main.status r = 400%Z
   /\ contains "Invalid file content type" (Main.detail_of r) = true)
  /\
  (endswith (lower (Main.filename f)) ".pdf" = true ->
   Main.content_type f = Some "application/pdf" ->
   forall (b : list Byte.byte) (text : string),
     tmp_round_trip (Main.file f) = Ok b ->
     PdfProcessor.extract_text_from_pdf PdfReader b = Ok text ->
     all_space text = true ->
     Main.status r = 422%Z)
  /\
  (endswith (lower (Main.filename f)) ".pdf" = true ->
   Main.content_type f = Some "application/pdf" ->
   forall (b : list Byte.byte) (text : string) (resp : OpenAI.response)
          (raw X Y : string),
     tmp_round_trip (Main.file f) = Ok b ->
     PdfProcessor.extract_text_from_pdf PdfReader b = Ok text ->
     all_space text = false ->
     transport (GptAnalyzer.chat_request GptAnalyzer.default_model text)
     = Ok resp ->
     GptAnalyzer.first_content resp = Ok (PStr raw) ->
     json_decode raw
     = Ok (PDict [("simplified_contract", PStr X);
                  ("cons", PList [PStr Y])]) ->
     Main.status r = 200%Z
     /\ Main.body r
        = PDict [("original_filename", PStr (Main.filename f));
                 ("simplified_contract", PStr X);
                 ("cons", PList [PStr Y])]).
Proof.
  cbv zeta. split; [|split; [|split]].
  - intro Hname. run_endpoint. rewrite Hname. now split.
  - intros Hname Htype. run_endpoint.
    rewrite Hname, (content_type_is_false f _ Htype). now split.
  - intros Hname Htype b text Hb Ht Hs.
    apply content_type_is_iff in Htype. apply strip_empty_iff in Hs.
    run_endpoint. rewrite Hname, Htype. cbn [negb]. rewrite Hb, Ht, Hs.
    reflexivity.
  - intros Hname Htype b text resp raw X Y Hb Ht Hs Hcall Hcontent Hjson.
    apply content_type_is_iff in Htype.
    pose proof (proj2 (strip_nonempty_iff text) Hs) as Hstrip.
    run_endpoint. rewrite Hname, Htype. cbn [negb].
    rewrite Hb, Ht, Hstrip. cbn [negb].
    rewrite (analyze_contract_text_decoded json_decode transport _ _
               IO.initial resp raw _ Hs Hcall Hcontent Hjson).
    now split.
Qed.

End MainFacts.

(* ================================================================== *)
(** * The theorems at concrete inputs *)

Section Instances.
Import Py.

(** C1. The summary is not a string on every path: for a reply that is a
    JSON object whose [simplified_contract] is a number (or [null]), the
    analysis returns that value as the summary, unchecked. *)
Theorem analyze_contract_text_summary_unchecked :
  fst (GptAnalyzer.analyze_contract_text JsonDecoder.decode
         (Samples.replies_with (PStr (Samples.reply_json "42" "[]")))
         "Some contract text here" GptAnalyzer.default_model IO.initial)
  = Ok (PInt 42, PList [])
  /\ is_str (PInt 42) = false
  /\ fst (GptAnalyzer.analyze_contract_text JsonDecoder.decode
            (Samples.replies_with (PStr (Samples.reply_json "null" "[]")))
            "Some contract text here" GptAnalyzer.default_model IO.initial)
     = Ok (PNone, PList [])
  /\ is_str PNone = false.
Proof. repeat split; vm_compute; reflexivity. Qed.

Lemma analyze_contract_text_empty_witness :
  all_space "   " = true /\
  GptAnalyzer.analyze_contract_text JsonDecoder.decode
    (Samples.raises (Exn APIError "unreachable"))
    "   " GptAnalyzer.default_model IO.initial
  = (Ok (PStr "The provided contract text is empty.", PList []), IO.initial).
Proof.
  split; [reflexivity|].
  apply (analyze_contract_text_empty JsonDecoder.decode
           (Samples.raises (Exn APIError "unreachable"))
           "   " GptAnalyzer.default_model IO.initial).
  reflexivity.
Defined.

Lemma analyze_contract_text_transport_error_witness :
  exists summary,
    fst (GptAnalyzer.analyze_contract_text JsonDecoder.decode
           (Samples.raises (Exn APIError "Simulated API Error"))
           "Some contract text" GptAnalyzer.default_model IO.initial)
    = Ok (PStr summary, PList [])
    /\ contains "Simulated API Error" summary = true.
Proof.
  apply (analyze_contract_text_transport_error JsonDecoder.decode
           (Samples.raises (Exn APIError "Simulated API Error"))
           "Some contract text" GptAnalyzer.default_model IO.initial
           (Exn APIError "Simulated API Error")); reflexivity.
Defined.



Lemma analyze_contract_text_malformed_cons_witness :
  let raw := Samples.reply_json (Samples.q "A summary.")
               (Samples.q "This should be a list but is a string.") in
  exists summary,
    fst (GptAnalyzer.analyze_contract_text JsonDecoder.decode
           (Samples.replies_with (PStr raw))
           "Contract text" GptAnalyzer.default_model IO.initial)
    = Ok (summary, PList [PStr GptAnalyzer.cons_format_message]).
Proof.
  intro raw.
  apply (analyze_contract_text_malformed_cons JsonDecoder.decode
           (Samples.replies_with (PStr raw))
           "Contract text" GptAnalyzer.default_model IO.initial
           (Samples.reply (PStr raw)) raw
           [ ("simplified_contract", PStr "A summary.");
             ("cons", PStr "This should be a list but is a string.") ]
           (PStr "This should be a list but is a string."));
    try reflexivity.
  intros [ss Hss]. discriminate Hss.
Defined.

Lemma analyze_contract_text_well_formed_witness :
  let raw := Samples.reply_json (Samples.q "This is a simple summary.")
               ("[" ++ Samples.q "Con 1: Bad clause." ++ ", "
                ++ Samples.q "Con 2: Another issue." ++ "]") in
  fst (GptAnalyzer.analyze_contract_text JsonDecoder.decode
         (Samples.replies_with (PStr raw))
         "Some contract text here" GptAnalyzer.default_model IO.initial)
  = Ok (PStr "This is a simple summary.",
        PList [PStr "Con 1: Bad clause."; PStr "Con 2: Another issue."]).
Proof.
  intro raw.
  apply (analyze_contract_text_well_formed JsonDecoder.decode
           (Samples.replies_with (PStr raw))
           "Some contract text here" GptAnalyzer.default_model IO.initial
           (Samples.reply (PStr raw)) raw
           [ ("simplified_contract", PStr "This is a simple summary.");
             ("cons", PList [PStr "Con 1: Bad clause.";
                             PStr "Con 2: Another issue."]) ]
           "This is a simple summary."
           ["Con 1: Bad clause."; "Con 2: Another issue."]);
    reflexivity.
Defined.

Lemma analyze_contract_endpoint_outcomes_witness :
  let post := Main.post_analyze_contract Samples.tmp_ok in
  let raw := Samples.reply_json (Samples.q "X") ("[" ++ Samples.q "Y" ++ "]") in
  let r1 := post Samples.no_reader JsonDecoder.decode
              (Samples.raises (Exn APIError "unreachable"))
              (Samples.upload "test_contract.txt" "text/plain") in
  let r2 := post Samples.no_reader JsonDecoder.decode
              (Samples.raises (Exn APIError "unreachable"))
              (Samples.upload "test_contract.pdf" "text/plain") in
  let r3 := post (Samples.reads_as [None]) JsonDecoder.decode
              (Samples.raises (Exn APIError "unreachable"))
              (Samples.upload "test.pdf" "application/pdf") in
  let r4 := post (Samples.reads_as [Some "This is extracted PDF text."])
              JsonDecoder.decode (Samples.replies_with (PStr raw))
              (Samples.upload "test_contract.pdf" "application/pdf") in
  (Main.status r1 = 400%Z
   /\ contains "Invalid file type" (Main.detail_of r1) = true)
  /\ (Main.status r2 = 400%Z
      /\ contains "Invalid file content type" (Main.detail_of r2) = true)
  /\ Main.status r3 = 422%Z
  /\ (Main.status r4 = 200%Z
      /\ Main.body r4
         = PDict [("original_filename", PStr "test_contract.pdf");
                  ("simplified_contract", PStr "X");
                  ("cons", PList [PStr "Y"])]).
Proof.
  intros post raw r1 r2 r3 r4. split; [|split; [|split]].
  - apply (proj1 (analyze_contract_endpoint_outcomes Samples.tmp_ok
                    Samples.no_reader JsonDecoder.decode
                    (Samples.raises (Exn APIError "unreachable"))
                    (Samples.upload "test_contract.txt" "text/plain"))).
    reflexivity.
  - apply (proj1 (proj2 (analyze_contract_endpoint_outcomes Samples.tmp_ok
                    Samples.no_reader JsonDecoder.decode
                    (Samples.raises (Exn APIError "unreachable"))
                    (Samples.upload "test_contract.pdf" "text/plain")))).
    + reflexivity.
    + discriminate.
  - apply (proj1 (proj2 (proj2 (analyze_contract_endpoint_outcomes
                    Samples.tmp_ok (Samples.reads_as [None])
                    JsonDecoder.decode
                    (Samples.raises (Exn APIError "unreachable"))
                    (Samples.upload "test.pdf" "application/pdf"))))
             eq_refl eq_refl [] ""); reflexivity.
  - apply (proj2 (proj2 (proj2 (analyze_contract_endpoint_outcomes
                    Samples.tmp_ok
                    (Samples.reads_as [Some "This is extracted PDF text."])
                    JsonDecoder.decode (Samples.replies_with (PStr raw))
                    (Samples.upload "test_contract.pdf" "application/pdf"))))
             eq_refl eq_refl [] "This is extracted PDF text."
             (Samples.reply (PStr raw)) raw "X" "Y"); reflexivity.
Defined.

Lemma analyze_contract_endpoint_case_insensitive_witness :
  let f := Samples.upload "CONTRACT.PDF" "application/pdf" in
  endswith (lower (Main.filename f)) ".pdf" = true /\
  Main.post_analyze_contract Samples.tmp_ok Samples.no_reader
    JsonDecoder.decode (Samples.raises (Exn APIError "unreachable")) f
  <> {| Main.status := 400;
        Main.body :=
          PDict [("detail",
                  PStr "Invalid file type. Only PDF files are accepted.")] |}.
Proof.
  intro f.
  apply (analyze_contract_endpoint_case_insensitive Samples.tmp_ok
           Samples.no_reader JsonDecoder.decode
           (Samples.raises (Exn APIError "unreachable")) f "CONTRACT" ".PDF").
  - simpl. do 7 right. left. reflexivity.
  - reflexivity.
Defined.

End Instances.

(* ================================================================== *)
(** * backend/gpt_analyzer.py: further behaviour of the analysis *)

Section GptAnalyzerMore.
Import Py IO.
Variable json_decode : string -> result pyval.
Variable transport : OpenAI.transport.

Lemma all_str_map (items : list pyval) :
  forallb is_str items = true -> exists ss, items = map PStr ss.
Proof.
  induction items as [|x items IH]; intro H.
  - now exists [].
  - simpl in H. apply andb_true_iff in H as [Hx Hr].
    destruct x; try discriminate.
    destruct (IH Hr) as [ss ->]. now exists (s :: ss).
Qed.

Ltac outer_leaf e :=
  cbn [select]; destruct (isinstance e APIError);
  [|rewrite isinstance_Exception]; reflexivity.

(** For text that is not blank, the analysis sends one request, whatever
    happens next. *)
Lemma analyze_contract_text_calls (contract_text model : string) (w : world) :
  all_space contract_text = false ->
  calls (snd (GptAnalyzer.analyze_contract_text json_decode transport
                contract_text model w))
  = (calls w ++ [GptAnalyzer.chat_request model contract_text])%list.
Proof.
  intro Hs. apply strip_nonempty_iff in Hs. run_io. rewrite Hs. cbn [negb].
  destruct (transport _) as [resp|e]; [|outer_leaf e].
  destruct (GptAnalyzer.first_content resp) as [content|e]; [|outer_leaf e].
  destruct content as [| | | | s | |]; try reflexivity.
  cbn [Json.loads].
  destruct (json_decode s) as [v|e].
  - destruct v; reflexivity.
  - cbn [select]. destruct (isinstance e JSONDecodeError); [reflexivity|].
    destruct (isinstance e AttributeError); [reflexivity|]. outer_leaf e.
Qed.

(** The result when the transport call raises: the summary and the line
    printed depend on whether the exception is an [openai.APIError]. *)
Lemma analyze_contract_text_raised
  (contract_text model : string) (w : world) (e : exn) :
  all_space contract_text = false ->
  transport (GptAnalyzer.chat_request model contract_text) = Raise e ->
  GptAnalyzer.analyze_contract_text json_decode transport
    contract_text model w
  = (Ok (PStr ((if isinstance e APIError
                then "OpenAI API Error: "
                else "An unexpected error occurred during analysis: ")
               ++ str_exn e), PList []),
     {| calls := (calls w
                  ++ [GptAnalyzer.chat_request model contract_text])%list;
        stdout := (stdout w
                   ++ [((if isinstance e APIError
                         then "OpenAI API Error: "
                         else "Error during GPT analysis: ")
                        ++ str_exn e)%string])%list |}).
Proof.
  intros Hs He. apply strip_nonempty_iff in Hs.
  run_io. rewrite Hs, He. cbn [negb select].
  destruct (isinstance e APIError); [|rewrite isinstance_Exception];
    reflexivity.
Qed.

(** X1. On every path the analysis returns a pair and does not raise,
    whatever the transport and the decoder do, and the second component is
    a list of strings. *)
Theorem analyze_contract_text_never_raises
  (contract_text model : string) (w : world) :
  exists (summary : pyval) (cons : list string) (w' : world),
    GptAnalyzer.analyze_contract_text json_decode transport
      contract_text model w = (Ok (summary, PList (map PStr cons)), w').
Proof.
  destruct (analyze_contract_text_total json_decode transport
              contract_text model w) as (summary & items & w' & E & Hstr).
  destruct (all_str_map items Hstr) as [cons ->].
  now exists summary, cons, w'.
Qed.

(** X2. The summary returned is a string on every path but one: a summary
    that is not a string is the value that the decoded reply, an object,
    holds under [simplified_contract]. *)
Theorem analyze_contract_text_summary_str_unless
  (contract_text model : string) (w w' : world) (summary cons : pyval) :
  GptAnalyzer.analyze_contract_text json_decode transport
    contract_text model w = (Ok (summary, cons), w') ->
  is_str summary = false ->
  exists resp raw d,
    transport (GptAnalyzer.chat_request model contract_text) = Ok resp
    /\ GptAnalyzer.first_content resp = Ok (PStr raw)
    /\ json_decode raw = Ok (PDict d)
    /\ lookup "simplified_contract" d = Some summary.
Proof.
  intros E H.
  exact (analyze_contract_text_summary_str json_decode transport
           contract_text model w w' summary cons E H).
Qed.

(** X3. For text that is not blank the analysis sends exactly one request on
    every path (no retry): it names the caller's model, and its user message
    carries the text verbatim. *)
Theorem analyze_contract_text_single_request
  (contract_text model : string) (w : world) :
  all_space contract_text = false ->
  let req := GptAnalyzer.chat_request model contract_text in
  calls (snd (GptAnalyzer.analyze_contract_text json_decode transport
                contract_text model w))
  = (calls w ++ [req])%list
  /\ OpenAI.model req = model
  /\ exists system user,
       OpenAI.messages req
       = PList [ PDict [("role", PStr "system"); ("content", PStr system)];
                 PDict [("role", PStr "user"); ("content", PStr user)] ]
       /\ contains contract_text user = true.
Proof.
  intros Hs req. split; [now apply analyze_contract_text_calls|].
  split; [reflexivity|].
  exists GptAnalyzer.system_prompt, (GptAnalyzer.user_prompt contract_text).
  split; [reflexivity|].
  exact (contains_app contract_text
           ("Please analyze the following contract text:" ++ newline
            ++ newline ++ "```" ++ newline)
           (newline ++ "```")).
Qed.

(** X4. A reply that decodes to an object lacking a key gets that key's
    default: the placeholder summary when [simplified_contract] is missing,
    the empty list when [cons] is missing. *)
Theorem analyze_contract_text_missing_keys
  (contract_text model : string) (w : world)
  (resp : OpenAI.response) (raw : string) (d : list (string * pyval)) :
  all_space contract_text = false ->
  transport (GptAnalyzer.chat_request model contract_text) = Ok resp ->
  GptAnalyzer.first_content resp = Ok (PStr raw) ->
  json_decode raw = Ok (PDict d) ->
  let r := fst (GptAnalyzer.analyze_contract_text json_decode transport
                  contract_text model w) in
  (lookup "simplified_contract" d = None ->
   exists cons,
     r = Ok (PStr "Could not extract simplified contract.", cons))
  /\ (lookup "cons" d = None ->
      exists summary, r = Ok (summary, PList [])).
Proof.
  intros Hs Ht Hc Hd r. subst r.
  rewrite (analyze_contract_text_decoded json_decode transport _ _ w resp raw
             d Hs Ht Hc Hd).
  cbn [fst]. split; intros ->; now eexists.
Qed.

(** X5. A reply that decodes to anything but an object (a list, a string, a
    number, [null]) gives the fixed "unexpected structure" summary and no
    cons. *)
Theorem analyze_contract_text_not_an_object
  (contract_text model : string) (w : world)
  (resp : OpenAI.response) (raw : string) (v : pyval) :
  all_space contract_text = false ->
  transport (GptAnalyzer.chat_request model contract_text) = Ok resp ->
  GptAnalyzer.first_content resp = Ok (PStr raw) ->
  json_decode raw = Ok v ->
  (forall d, v <> PDict d) ->
  fst (GptAnalyzer.analyze_contract_text json_decode transport
         contract_text model w)
  = Ok (PStr "Unexpected response structure from GPT.", PList []).
Proof.
  intros Hs Ht Hc Hd Hv. apply strip_nonempty_iff in Hs.
  run_io. rewrite Hs, Ht. cbn [negb]. rewrite Hc. cbn [Json.loads].
  rewrite Hd.
  destruct v as [| | | | | |d]; try reflexivity.
  now destruct (Hv d).
Qed.

(** X6. A reply with no choices is reported as an unexpected error, with no
    cons: the index error is caught by the outer handler. *)
Theorem analyze_contract_text_no_choices
  (contract_text model : string) (w : world) (resp : OpenAI.response) :
  all_space contract_text = false ->
  transport (GptAnalyzer.chat_request model contract_text) = Ok resp ->
  OpenAI.choices resp = [] ->
  fst (GptAnalyzer.analyze_contract_text json_decode transport
         contract_text model w)
  = Ok (PStr "An unexpected error occurred during analysis: list index out of range",
        PList []).
Proof.
  intros Hs Ht Hc. apply strip_nonempty_iff in Hs.
  run_io. rewrite Hs, Ht. cbn [negb].
  unfold GptAnalyzer.first_content. rewrite Hc. reflexivity.
Qed.

(** X7. A reply whose content is not a string (for instance [None]) is
    reported as an unexpected error, with no cons; the decoder is not
    consulted, so the result is the same for every decoder. *)
Theorem analyze_contract_text_content_not_str
  (contract_text model : string) (w : world)
  (resp : OpenAI.response) (content : pyval) :
  all_space contract_text = false ->
  transport (GptAnalyzer.chat_request model contract_text) = Ok resp ->
  GptAnalyzer.first_content resp = Ok content ->
  is_str content = false ->
  fst (GptAnalyzer.analyze_contract_text json_decode transport
         contract_text model w)
  = Ok (PStr ("An unexpected error occurred during analysis: "
              ++ "the JSON object must be str, bytes or bytearray, not "
              ++ type_name content),
        PList []).
Proof.
  intros Hs Ht Hc Hn. apply strip_nonempty_iff in Hs.
  run_io. rewrite Hs, Ht. cbn [negb]. rewrite Hc.
  destruct content; try discriminate; reflexivity.
Qed.

(** X8. When the transport call raises, an [openai.APIError] is reported
    with the prefix "OpenAI API Error: " and any other exception with the
    prefix "An unexpected error occurred during analysis: "; in both cases
    the description follows, the cons are empty, and one line is printed. *)
Theorem analyze_contract_text_error_report
  (contract_text model : string) (w : world) (e : exn) :
  all_space contract_text = false ->
  transport (GptAnalyzer.chat_request model contract_text) = Raise e ->
  let r := GptAnalyzer.analyze_contract_text json_decode transport
             contract_text model w in
  fst r
  = Ok (PStr ((if isinstance e APIError
               then "OpenAI API Error: "
               else "An unexpected error occurred during analysis: ")
              ++ str_exn e), PList [])
  /\ stdout (snd r)
     = (stdout w
        ++ [((if isinstance e APIError
              then "OpenAI API Error: "
              else "Error during GPT analysis: ") ++ str_exn e)%string])%list.
Proof.
  intros Hs He r. subst r.
  rewrite (analyze_contract_text_raised contract_text model w e Hs He).
  now split.
Qed.

End GptAnalyzerMore.

(* ================================================================== *)
(** * backend/pdf_processor.py: further behaviour of the extraction *)

Section PdfProcessorMore.
Import Py.
Variable PdfReader : PyPDF2.PdfReader_t.

Lemma unreadable_extracts_nothing (b : list Byte.byte) :
  Spec.unreadable PdfReader b ->
  PdfProcessor.extract_text_from_pdf PdfReader b = Ok "".
Proof.
  unfold PdfProcessor.extract_text_from_pdf.
  intros [e He | r e Hr He | r n i Hr Hn Hi Hp].
  - rewrite He. apply handlers_catch_all.
  - rewrite Hr. cbn [rbind]. rewrite He. apply handlers_catch_all.
  - rewrite Hr. cbn [rbind]. rewrite Hn. cbn [rbind].
    assert (Hin : In i (seq 0 n)) by (apply in_seq; lia).
    destruct (for_page_num_raises r i Hp (seq 0 n) "" Hin) as [e ->].
    apply handlers_catch_all.
Qed.

Lemma yields_extracts (b : list Byte.byte) (r : PyPDF2.reader)
  (texts : list (option string)) :
  PdfReader b = Ok r ->
  Spec.yields r texts ->
  PdfProcessor.extract_text_from_pdf PdfReader b
  = Ok (Spec.concat_texts (map Spec.page_text texts)).
Proof.
  intros Hr [Hn Hp]. unfold PdfProcessor.extract_text_from_pdf.
  rewrite Hr. cbn [rbind]. rewrite Hn. cbn [rbind].
  rewrite (for_page_num_yields r texts 0 "" Hp). reflexivity.
Qed.

(** X9. Extraction never raises: for every byte sequence, whatever the
    reader and its pages do, it returns a string. *)
Theorem extract_text_from_pdf_never_raises (b : list Byte.byte) :
  exists text, PdfProcessor.extract_text_from_pdf PdfReader b = Ok text.
Proof. exact (extract_text_from_pdf_total PdfReader b). Qed.

End PdfProcessorMore.

(* ================================================================== *)
(** * backend/main.py: further behaviour of the endpoint *)

Section MainMore.
Import Py IO.
Variable tmp_round_trip : list Byte.byte -> result (list Byte.byte).
Variable PdfReader : PyPDF2.PdfReader_t.
Variable json_decode : string -> result pyval.
Variable transport : OpenAI.transport.

(** The handler on an upload that passed both checks and was read back. *)
Lemma endpoint_blank (f : Main.UploadFile) (w : world)
  (b : list Byte.byte) (text : string) :
  endswith (lower (Main.filename f)) ".pdf" = true ->
  Main.content_type f = Some "application/pdf" ->
  tmp_round_trip (Main.file f) = Ok b ->
  PdfProcessor.extract_text_from_pdf PdfReader b = Ok text ->
  all_space text = true ->
  Main.analyze_contract_endpoint tmp_round_trip PdfReader json_decode
    transport f w
  = (Raise (HTTPException 422
              "Could not extract text from the PDF. It might be empty, image-based, or corrupted."),
     w).
Proof.
  intros Hname Htype Hb Ht Hs.
  apply content_type_is_iff in Htype. apply strip_empty_iff in Hs.
  run_endpoint. rewrite Hname, Htype. cbn [negb]. rewrite Hb, Ht, Hs.
  reflexivity.
Qed.

Lemma endpoint_analysed (f : Main.UploadFile) (w w' : world)
  (b : list Byte.byte) (text : string) (summary : pyval)
  (cons : list pyval) :
  endswith (lower (Main.filename f)) ".pdf" = true ->
  Main.content_type f = Some "application/pdf" ->
  tmp_round_trip (Main.file f) = Ok b ->
  PdfProcessor.extract_text_from_pdf PdfReader b = Ok text ->
  all_space text = false ->
  GptAnalyzer.analyze_contract_text json_decode transport text
    GptAnalyzer.default_model w = (Ok (summary, PList cons), w') ->
  Main.analyze_contract_endpoint tmp_round_trip PdfReader json_decode
    transport f w
  = (Ok (PDict [ ("original_filename", PStr (Main.filename f));
                 ("simplified_contract", summary);
                 ("cons", PList cons) ]), w').
Proof.
  intros Hname Htype Hb Ht Hs Ha.
  apply content_type_is_iff in Htype. apply strip_nonempty_iff in Hs.
  run_endpoint. rewrite Hname, Htype. cbn [negb]. rewrite Hb, Ht, Hs.
  cbn [negb]. rewrite Ha. cbn [fst snd is_None]. rewrite andb_false_r.
  reflexivity.
Qed.

(** X10. An upload that passes both checks and whose bytes cannot be parsed
    as a document is answered 422, and nothing is sent to the transport. *)
Theorem analyze_contract_endpoint_unreadable
  (f : Main.UploadFile) (w : world) (b : list Byte.byte) :
  endswith (lower (Main.filename f)) ".pdf" = true ->
  Main.content_type f = Some "application/pdf" ->
  tmp_round_trip (Main.file f) = Ok b ->
  Spec.unreadable PdfReader b ->
  Main.status (Main.respond (fst (Main.analyze_contract_endpoint tmp_round_trip PdfReader
       json_decode transport f w))) = 422%Z
  /\ snd (Main.analyze_contract_endpoint tmp_round_trip PdfReader
       json_decode transport f w) = w.
Proof.
  intros Hname Htype Hb Hu.
  rewrite (endpoint_blank f w b "" Hname Htype Hb
             (unreadable_extracts_nothing PdfReader b Hu) eq_refl).
  now split.
Qed.

(** X11. An upload that passes both checks and whose document is readable
    but whose pages yield only white space (or no text at all) is answered
    422. *)
Theorem analyze_contract_endpoint_blank_pages
  (f : Main.UploadFile) (b : list Byte.byte) (r : PyPDF2.reader)
  (texts : list (option string)) :
  endswith (lower (Main.filename f)) ".pdf" = true ->
  Main.content_type f = Some "application/pdf" ->
  tmp_round_trip (Main.file f) = Ok b ->
  PdfReader b = Ok r ->
  Spec.yields r texts ->
  all_space (Spec.concat_texts (map Spec.page_text texts)) = true ->
  Main.status (Main.post_analyze_contract tmp_round_trip PdfReader json_decode
       transport f) = 422%Z.
Proof.
  intros Hname Htype Hb Hr Hy Hs. unfold Main.post_analyze_contract.
  rewrite (endpoint_blank f IO.initial b _ Hname Htype Hb
             (yields_extracts PdfReader b r texts Hr Hy) Hs).
  reflexivity.
Qed.




(** X13. A failure of the transport does not become an HTTP error: the
    answer is a 200 whose [simplified_contract] is a string containing the
    exception's description and whose [cons] is empty. *)
Theorem analyze_contract_endpoint_transport_error
  (f : Main.UploadFile) (b : list Byte.byte) (text : string) (e : exn) :
  endswith (lower (Main.filename f)) ".pdf" = true ->
  Main.content_type f = Some "application/pdf" ->
  tmp_round_trip (Main.file f) = Ok b ->
  PdfProcessor.extract_text_from_pdf PdfReader b = Ok text ->
  all_space text = false ->
  transport (GptAnalyzer.chat_request GptAnalyzer.default_model text)
  = Raise e ->
  exists summary,
    Main.post_analyze_contract tmp_round_trip PdfReader json_decode
      transport f
    = {| Main.status := 200;
         Main.body :=
           PDict [ ("original_filename", PStr (Main.filename f));
                   ("simplified_contract", PStr summary);
                   ("cons", PList []) ] |}
    /\ contains (str_exn e) summary = true.
Proof.
  intros Hname Htype Hb Ht Hs He.
  eexists. unfold Main.post_analyze_contract.
  rewrite (endpoint_analysed f IO.initial _ b text _ []
             Hname Htype Hb Ht Hs
             (analyze_contract_text_raised json_decode transport text
                GptAnalyzer.default_model IO.initial e Hs He)).
  split; [reflexivity | apply contains_suffix].
Qed.

(** X14. When the upload cannot be saved or read back, the answer is a 500
    whose detail is "Failed to save or read uploaded PDF: " followed by the
    exception's description, and nothing is extracted or sent. *)
Theorem analyze_contract_endpoint_tmp_failure
  (f : Main.UploadFile) (w : world) (e : exn) :
  endswith (lower (Main.filename f)) ".pdf" = true ->
  Main.content_type f = Some "application/pdf" ->
  tmp_round_trip (Main.file f) = Raise e ->
  Main.respond (fst (Main.analyze_contract_endpoint tmp_round_trip PdfReader
       json_decode transport f w))
  = {| Main.status := 500;
       Main.body :=
         PDict [("detail",
                 PStr ("Failed to save or read uploaded PDF: "
                       ++ str_exn e))] |}
  /\ snd (Main.analyze_contract_endpoint tmp_round_trip PdfReader
       json_decode transport f w) = w.
Proof.
  intros Hname Htype He. apply content_type_is_iff in Htype.
  run_endpoint. rewrite Hname, Htype. cbn [negb]. rewrite He.
  cbn [select]. rewrite isinstance_Exception. now split.
Qed.

(** Every run of the handler is one of five: rejected for the file name,
    rejected for the content type, failed on the temporary file, rejected
    for want of text, or answered with the analysis. *)
Lemma endpoint_cases (f : Main.UploadFile) (w : world) :
  let out := Main.analyze_contract_endpoint tmp_round_trip PdfReader
               json_decode transport f w in
  out = (Raise (HTTPException 400
                  "Invalid file type. Only PDF files are accepted."), w)
  \/ out = (Raise (HTTPException 400
                     "Invalid file content type. Expected application/pdf."),
            w)
  \/ (exists e,
        tmp_round_trip (Main.file f) = Raise e
        /\ out = (Raise (HTTPException 500
                           ("Failed to save or read uploaded PDF: "
                            ++ str_exn e)), w))
  \/ out = (Raise (HTTPException 422
                     "Could not extract text from the PDF. It might be empty, image-based, or corrupted."),
            w)
  \/ (exists b text summary cons w',
        tmp_round_trip (Main.file f) = Ok b
        /\ PdfProcessor.extract_text_from_pdf PdfReader b = Ok text
        /\ all_space text = false
        /\ GptAnalyzer.analyze_contract_text json_decode transport text
             GptAnalyzer.default_model w = (Ok (summary, PList cons), w')
        /\ out = (Ok (PDict [ ("original_filename", PStr (Main.filename f));
                              ("simplified_contract", summary);
                              ("cons", PList cons) ]), w')).
Proof.
  cbv zeta.
  destruct (endswith (lower (Main.filename f)) ".pdf") eqn:Hname.
  2:{ left. run_endpoint. now rewrite Hname. }
  destruct (Main.content_type_is f "application/pdf") eqn:Htype.
  2:{ right; left. run_endpoint. now rewrite Hname, Htype. }
  apply content_type_is_iff in Htype.
  destruct (tmp_round_trip (Main.file f)) as [b|e] eqn:Hb.
  2:{ right; right; left. exists e. split; [reflexivity|].
      apply content_type_is_iff in Htype.
      run_endpoint. rewrite Hname, Htype. cbn [negb]. rewrite Hb.
      cbn [select]. now rewrite isinstance_Exception. }
  destruct (extract_text_from_pdf_total PdfReader b) as [text Ht].
  destruct (all_space text) eqn:Hs.
  - right; right; right; left.
    now apply (endpoint_blank f w b text).
  - right; right; right; right.
    destruct (analyze_contract_text_total json_decode transport text
                GptAnalyzer.default_model w)
      as (summary & cons & w' & Ha & _).
    exists b, text, summary, cons, w'.
    repeat (split; [first [assumption | reflexivity]|]).
    now apply (endpoint_analysed f w w' b text summary cons).
Qed.

(** X15. The endpoint answers with one of four status codes, 200, 400, 422
    or 500.  A 500 has two causes only: the upload could not be saved or
    read back, or the body that the handler returned could not be encoded
    as JSON.  The handler's other 500 answers (an exception from the
    analysis, an analysis without result) are never raised with the
    repository's own analysis function. *)
Theorem analyze_contract_endpoint_statuses (f : Main.UploadFile) :
  let out := fst (Main.analyze_contract_endpoint tmp_round_trip PdfReader
                    json_decode transport f IO.initial) in
  let r := Main.post_analyze_contract tmp_round_trip PdfReader json_decode
             transport f in
  (Main.status r = 200%Z \/ Main.status r = 400%Z
   \/ Main.status r = 422%Z \/ Main.status r = 500%Z)
  /\ (Main.status r = 500%Z ->
      (exists e,
         tmp_round_trip (Main.file f) = Raise e
         /\ Main.body r
            = PDict [("detail",
                      PStr ("Failed to save or read uploaded PDF: "
                            ++ str_exn e))])
      \/ (exists body,
            out = Ok body /\ Json.encodable body = false
            /\ Main.body r = PStr "Internal Server Error"))
  /\ out <> Raise (HTTPException 500
                     "Contract analysis failed to produce a result.")
  /\ (forall d,
        out <> Raise (HTTPException 500
                        ("Error during GPT analysis: " ++ d))).
Proof.
  cbv zeta. unfold Main.post_analyze_contract.
  destruct (endpoint_cases f IO.initial)
    as [E|[E|[(e & He & E)|[E|(b & t & s & c & w' & _ & _ & _ & _ & E)]]]];
    rewrite E; cbn [fst Main.respond Main.status Main.body].
  - repeat split; [auto | discriminate | discriminate | discriminate].
  - repeat split; [auto | discriminate | discriminate | discriminate].
  - repeat split; [auto | | discriminate | discriminate].
    intros _. left. now exists e.
  - repeat split; [auto | discriminate | discriminate | discriminate].
  - match goal with |- context [Json.encodable ?v] =>
      destruct (Json.encodable v) eqn:Henc end;
      cbn [Main.status Main.body];
      (repeat split; [auto | | discriminate | discriminate]).
    + discriminate.
    + intros _. right. eexists. now repeat split.
Qed.

(** X16. An upload that is not answered with a result leaves the world as
    it was: nothing is sent to the transport and nothing is printed.  An
    upload that is answered with a result has sent exactly one request, for
    the default model and the text extracted from it. *)
Theorem analyze_contract_endpoint_requests (f : Main.UploadFile) (w : world) :
  let out := Main.analyze_contract_endpoint tmp_round_trip PdfReader
               json_decode transport f w in
  (forall e, fst out = Raise e -> snd out = w)
  /\ (forall body, fst out = Ok body ->
      exists b text,
        tmp_round_trip (Main.file f) = Ok b
        /\ PdfProcessor.extract_text_from_pdf PdfReader b = Ok text
        /\ calls (snd out)
           = (calls w
              ++ [GptAnalyzer.chat_request GptAnalyzer.default_model text])%list).
Proof.
  cbv zeta.
  destruct (endpoint_cases f w)
    as [E|[E|[(e & He & E)|[E|(b & t & s & c & w' & Hb & Ht & Hs & Ha & E)]]]];
    rewrite E; cbn [fst snd]; split; try easy.
  intros body _. exists b, t. repeat (split; [assumption|]).
  pose proof (analyze_contract_text_calls json_decode transport t
                GptAnalyzer.default_model w Hs) as Hc.
  now rewrite Ha in Hc.
Qed.

Lemma lower_split (a b : string) :
  forall s, lower s = a ++ b ->
    exists s1 s2, s = s1 ++ s2 /\ lower s1 = a /\ lower s2 = b.
Proof.
  induction a as [|c a IH]; intros s H.
  - now exists "", s.
  - destruct s as [|d s]; [discriminate|].
    cbn [lower append] in H. injection H as Hc Hs.
    destruct (IH s Hs) as (s1 & s2 & -> & H1 & H2).
    exists (String d s1), s2. cbn [lower append]. now rewrite Hc, H1.
Qed.

Ltac by_cases_on_char c :=
  let H := fresh "H" in
  destruct c as [[] [] [] [] [] [] [] []]; vm_compute; intro H;
  try discriminate H; auto.

Lemma lower_char_dot (c : ascii) : lower_char c = "."%char -> c = "."%char.
Proof. by_cases_on_char c. Qed.

Lemma lower_char_p (c : ascii) :
  lower_char c = "p"%char -> c = "p"%char \/ c = "P"%char.
Proof. by_cases_on_char c. Qed.

Lemma lower_char_d (c : ascii) :
  lower_char c = "d"%char -> c = "d"%char \/ c = "D"%char.
Proof. by_cases_on_char c. Qed.

Lemma lower_char_f (c : ascii) :
  lower_char c = "f"%char -> c = "f"%char \/ c = "F"%char.
Proof. by_cases_on_char c. Qed.

(** X17. The file names that pass the first check are exactly those that end
    in a letter-case variant of [.pdf]. *)
Theorem filename_check_iff (name : string) :
  endswith (lower name) ".pdf" = true
  <-> exists stem ext, In ext Spec.pdf_extensions /\ name = stem ++ ext.
Proof.
  split.
  - intro H. apply endswith_split in H as [p Hp].
    apply lower_split in Hp as (stem & ext & -> & _ & Hext).
    exists stem, ext. split; [|reflexivity].
    destruct ext as [|c1 [|c2 [|c3 [|c4 [|c5 rest]]]]]; try discriminate Hext.
    cbn [lower] in Hext. injection Hext as H1 H2 H3 H4.
    apply lower_char_dot in H1. apply lower_char_p in H2.
    apply lower_char_d in H3. apply lower_char_f in H4.
    subst c1. destruct H2 as [-> | ->], H3 as [-> | ->], H4 as [-> | ->];
      cbn [Spec.pdf_extensions In]; tauto.
  - intros (stem & ext & Hext & ->). now apply pdf_extension_accepted.
Qed.

End MainMore.

(* ================================================================== *)
(** * backend/main.py: the handler over replaced imports *)

Ltac run_handler :=
  unfold Handler.analyze_contract_endpoint, IO.try_except, IO.bind, IO.lift,
    IO.raise, IO.ret;
  cbn [negb fst snd].

Section HandlerFacts.
Import Py IO.
Variable tmp_round_trip : list Byte.byte -> result (list Byte.byte).
Variable extract_text_from_pdf : list Byte.byte -> result string.
Variable analyze_contract_text : string -> IO (pyval * pyval).

(** The endpoint of the repository is the handler at the repository's own
    extraction and analysis functions. *)
Lemma endpoint_is_handler (PdfReader : PyPDF2.PdfReader_t)
  (json_decode : string -> result pyval) (transport : OpenAI.transport)
  (f : Main.UploadFile) :
  Main.analyze_contract_endpoint tmp_round_trip PdfReader json_decode
    transport f
  = Handler.analyze_contract_endpoint tmp_round_trip
      (PdfProcessor.extract_text_from_pdf PdfReader)
      (fun text =>
         GptAnalyzer.analyze_contract_text json_decode transport text
           GptAnalyzer.default_model) f.
Proof. reflexivity. Qed.


(** X18. When the analysis function raises, the handler does not let the
    exception through: it answers 500, with the bare description for an
    [EnvironmentError] and with "Error during GPT analysis: " before the
    description for any other exception. *)
Theorem handler_analysis_raises
  (f : Main.UploadFile) (w w' : world) (b : list Byte.byte)
  (text : string) (e : exn) :
  endswith (lower (Main.filename f)) ".pdf" = true ->
  Main.content_type f = Some "application/pdf" ->
  tmp_round_trip (Main.file f) = Ok b ->
  extract_text_from_pdf b = Ok text ->
  all_space text = false ->
  analyze_contract_text text w = (Raise e, w') ->
  Main.respond
    (fst (Handler.analyze_contract_endpoint tmp_round_trip
            extract_text_from_pdf analyze_contract_text f w))
  = {| Main.status := 500;
       Main.body :=
         PDict [("detail",
                 PStr (if isinstance e EnvironmentError
                       then str_exn e
                       else "Error during GPT analysis: " ++ str_exn e))] |}.
Proof.
  intros Hname Htype Hb Ht Hs Ha.
  apply content_type_is_iff in Htype. apply strip_nonempty_iff in Hs.
  run_handler. rewrite Hname, Htype. cbn [negb]. rewrite Hb, Ht, Hs.
  cbn [negb]. rewrite Ha. cbn [select].
  destruct (isinstance e EnvironmentError); [reflexivity|].
  now rewrite isinstance_Exception.
Qed.


End HandlerFacts.

(* ================================================================== *)
(** * backend/gpt_analyzer.py: the credential check *)

Section StartupFacts.
Import Py.

(** X20. Importing the analysis module succeeds exactly when
    [OPENAI_API_KEY] is set to a string that is not empty, and the key is
    then that string; when the variable is unset or empty the import raises
    an [EnvironmentError] that says so. *)
Theorem import_gpt_analyzer_iff (getenv : string -> option string) :
  (forall k,
     Startup.import_gpt_analyzer getenv = Ok k
     <-> getenv "OPENAI_API_KEY" = Some k /\ k <> "")
  /\ (Startup.import_gpt_analyzer getenv
      = Raise (Exn EnvironmentError
                 "OPENAI_API_KEY environment variable not set.")
      <-> getenv "OPENAI_API_KEY" = None
          \/ getenv "OPENAI_API_KEY" = Some "").
Proof.
  unfold Startup.import_gpt_analyzer.
  destruct (getenv "OPENAI_API_KEY") as [[|c k']|]; cbn [truthy negb].
  - split.
    + intro k. split; [discriminate|]. intros [[= <-] Hk]. now destruct Hk.
    + split; auto.
  - split.
    + intro k. split.
      * intros [= <-]. split; [reflexivity | discriminate].
      * now intros [[= <-] _].
    + split; [discriminate|]. intros [H|H]; discriminate H.
  - split.
    + intro k. split; [discriminate|]. now intros [H _].
    + split; auto.
Qed.

End StartupFacts.

(* ================================================================== *)
(** * backend/pdf_processor.py: the script *)

Section PdfScriptFacts.
Import Py IO.

Lemma length_append (a b : string) :
  String.length (a ++ b) = String.length a + String.length b.
Proof. induction a; simpl; congruence. Qed.

Lemma length_substring_0 (n : nat) :
  forall s, String.length (substring 0 n s) = Nat.min n (String.length s).
Proof.
  induction n as [|n IH]; intros [|c s]; simpl; try reflexivity.
  now rewrite IH.
Qed.

Lemma substring_0_split (n : nat) :
  forall s, n <= String.length s ->
    exists tail, s = substring 0 n s ++ tail.
Proof.
  induction n as [|n IH]; intros s Hn.
  - exists s. now destruct s.
  - destruct s as [|c s]; [inversion Hn|].
    destruct (IH s) as [tail Ht]; [simpl in Hn; lia|].
    exists tail. simpl. now rewrite <- Ht.
Qed.

(** X21. The preview that the script prints is the text itself when the
    text has at most 500 characters, and otherwise the first 500 characters
    of the text followed by three dots, 503 characters in all. *)
Theorem preview_bound (text : string) :
  (String.length text <= 500 -> PdfScript.preview text = text)
  /\ (500 < String.length text ->
      exists head tail,
        text = head ++ tail
        /\ String.length head = 500
        /\ PdfScript.preview text = head ++ "..."
        /\ String.length (PdfScript.preview text) = 503)
  /\ String.length (PdfScript.preview text) <= 503.
Proof.
  unfold PdfScript.preview.
  destruct (500 <? String.length text)%nat eqn:E.
  - apply Nat.ltb_lt in E.
    assert (H500 : String.length (substring 0 500 text) = 500).
    { rewrite length_substring_0. apply Nat.min_l. lia. }
    assert (L : String.length (substring 0 500 text ++ "...") = 503).
    { rewrite length_append, H500. reflexivity. }
    split; [lia|]. split; [|lia].
    intros _. destruct (substring_0_split 500 text) as [tail Ht]; [lia|].
    exists (substring 0 500 text), tail. now repeat split.
  - apply Nat.ltb_ge in E. split; [reflexivity|]. split; lia.
Qed.

(** X22. The script never raises, whatever reading the file and the reader
    do: it prints one line, or two when text was extracted, and sends
    nothing to the transport. *)
Theorem pdf_script_never_raises
  (read_sample : result (list Byte.byte)) (PdfReader : PyPDF2.PdfReader_t)
  (w : world) :
  exists lines,
    PdfScript.main read_sample PdfReader w
    = (Ok tt, {| calls := calls w; stdout := (stdout w ++ lines)%list |})
    /\ (List.length lines = 1 \/ List.length lines = 2).
Proof.
  unfold PdfScript.main, try_except, bind, lift, print.
  destruct read_sample as [[|b0 bs]|e].
  - eexists [_]. split; [reflexivity | now left].
  - destruct (extract_text_from_pdf_total PdfReader (b0 :: bs)) as [t ->].
    destruct (truthy t).
    + eexists [_; _]. cbn [calls stdout]. rewrite <- app_assoc.
      split; [reflexivity | now right].
    + eexists [_]. split; [reflexivity | now left].
  - cbn [select]. destruct (isinstance e PdfScript.FileNotFoundError).
    + eexists [_]. split; [reflexivity | now left].
    + rewrite isinstance_Exception.
      eexists [_]. split; [reflexivity | now left].
Qed.

End PdfScriptFacts.

(* ================================================================== *)
(** * The further theorems at concrete inputs *)

Section MoreInstances.
Import Py.

Lemma document_yields (pages : list (option string)) :
  Spec.yields (Samples.document pages) pages.
Proof.
  split; [reflexivity|].
  intros i t Hi. cbn [Samples.document PyPDF2.get_page]. rewrite Hi.
  eexists. split; reflexivity.
Qed.

Lemma analyze_contract_text_summary_str_unless_witness :
  exists resp raw d,
    Samples.replies_with (PStr (Samples.reply_json "42" "[]"))
      (GptAnalyzer.chat_request GptAnalyzer.default_model
         "Some contract text here") = Ok resp
    /\ GptAnalyzer.first_content resp = Ok (PStr raw)
    /\ JsonDecoder.decode raw = Ok (PDict d)
    /\ lookup "simplified_contract" d = Some (PInt 42).
Proof.
  eapply (analyze_contract_text_summary_str_unless JsonDecoder.decode
            (Samples.replies_with (PStr (Samples.reply_json "42" "[]")))
            "Some contract text here" GptAnalyzer.default_model IO.initial
            _ (PInt 42) (PList [])); reflexivity.
Defined.

Lemma analyze_contract_text_single_request_witness :
  IO.calls
    (snd (GptAnalyzer.analyze_contract_text JsonDecoder.decode
            (Samples.raises (Exn APIError "Simulated API Error"))
            "Some contract text" "gpt-4" IO.initial))
  = [GptAnalyzer.chat_request "gpt-4" "Some contract text"]
  /\ OpenAI.model (GptAnalyzer.chat_request "gpt-4" "Some contract text")
     = "gpt-4"
  /\ exists system user,
       OpenAI.messages (GptAnalyzer.chat_request "gpt-4" "Some contract text")
       = PList [ PDict [("role", PStr "system"); ("content", PStr system)];
                 PDict [("role", PStr "user"); ("content", PStr user)] ]
       /\ contains "Some contract text" user = true.
Proof.
  exact (analyze_contract_text_single_request JsonDecoder.decode
           (Samples.raises (Exn APIError "Simulated API Error"))
           "Some contract text" "gpt-4" IO.initial eq_refl).
Defined.

Lemma analyze_contract_text_missing_keys_witness :
  let r := fst (GptAnalyzer.analyze_contract_text JsonDecoder.decode
                  (Samples.replies_with (PStr "{}"))
                  "Some contract text" GptAnalyzer.default_model
                  IO.initial) in
  (exists cons, r = Ok (PStr "Could not extract simplified contract.", cons))
  /\ (exists summary, r = Ok (summary, PList [])).
Proof.
  intro r.
  pose proof (analyze_contract_text_missing_keys JsonDecoder.decode
                (Samples.replies_with (PStr "{}"))
                "Some contract text" GptAnalyzer.default_model IO.initial
                (Samples.reply (PStr "{}")) "{}" []
                eq_refl eq_refl eq_refl eq_refl) as [H1 H2].
  split; [exact (H1 eq_refl) | exact (H2 eq_refl)].
Defined.

Lemma analyze_contract_text_not_an_object_witness :
  fst (GptAnalyzer.analyze_contract_text JsonDecoder.decode
         (Samples.replies_with (PStr "[1, 2]"))
         "Some contract text" GptAnalyzer.default_model IO.initial)
  = Ok (PStr "Unexpected response structure from GPT.", PList []).
Proof.
  apply (analyze_contract_text_not_an_object JsonDecoder.decode
           (Samples.replies_with (PStr "[1, 2]"))
           "Some contract text" GptAnalyzer.default_model IO.initial
           (Samples.reply (PStr "[1, 2]")) "[1, 2]"
           (PList [PInt 1; PInt 2])); try reflexivity.
  intros d H. discriminate H.
Defined.

Lemma analyze_contract_text_no_choices_witness :
  fst (GptAnalyzer.analyze_contract_text JsonDecoder.decode
         (fun _ => Ok {| OpenAI.choices := [] |})
         "Some contract text" GptAnalyzer.default_model IO.initial)
  = Ok (PStr "An unexpected error occurred during analysis: list index out of range",
        PList []).
Proof.
  apply (analyze_contract_text_no_choices JsonDecoder.decode
           (fun _ => Ok {| OpenAI.choices := [] |})
           "Some contract text" GptAnalyzer.default_model IO.initial
           {| OpenAI.choices := [] |}); reflexivity.
Defined.

Lemma analyze_contract_text_content_not_str_witness :
  fst (GptAnalyzer.analyze_contract_text JsonDecoder.decode
         (Samples.replies_with PNone)
         "Some contract text" GptAnalyzer.default_model IO.initial)
  = Ok (PStr "An unexpected error occurred during analysis: the JSON object must be str, bytes or bytearray, not NoneType",
        PList []).
Proof.
  apply (analyze_contract_text_content_not_str JsonDecoder.decode
           (Samples.replies_with PNone)
           "Some contract text" GptAnalyzer.default_model IO.initial
           (Samples.reply PNone) PNone); reflexivity.
Defined.

(** An [openai.APIError], and an exception of another class. *)
Lemma analyze_contract_text_error_report_witness :
  let r1 := GptAnalyzer.analyze_contract_text JsonDecoder.decode
              (Samples.raises (Exn APIError "Simulated API Error"))
              "Some contract text" GptAnalyzer.default_model IO.initial in
  let r2 := GptAnalyzer.analyze_contract_text JsonDecoder.decode
              (Samples.raises
                 (Exn Samples2.AuthenticationError "Invalid API key"))
              "Text" GptAnalyzer.default_model IO.initial in
  (fst r1 = Ok (PStr "OpenAI API Error: Simulated API Error", PList [])
   /\ IO.stdout (snd r1) = ["OpenAI API Error: Simulated API Error"])
  /\ (fst r2
      = Ok (PStr "An unexpected error occurred during analysis: Invalid API key",
            PList [])
      /\ IO.stdout (snd r2) = ["Error during GPT analysis: Invalid API key"]).
Proof.
  intros r1 r2. split.
  - exact (analyze_contract_text_error_report JsonDecoder.decode
             (Samples.raises (Exn APIError "Simulated API Error"))
             "Some contract text" GptAnalyzer.default_model IO.initial
             (Exn APIError "Simulated API Error") eq_refl eq_refl).
  - exact (analyze_contract_text_error_report JsonDecoder.decode
             (Samples.raises
                (Exn Samples2.AuthenticationError "Invalid API key"))
             "Text" GptAnalyzer.default_model IO.initial
             (Exn Samples2.AuthenticationError "Invalid API key")
             eq_refl eq_refl).
Defined.

(** Bytes that the reader refuses, and a document with a page that cannot
    be read after one that can. *)
Lemma analyze_contract_endpoint_unreadable_witness :
  let out1 := Main.analyze_contract_endpoint Samples.tmp_ok Samples.no_reader
                JsonDecoder.decode
                (Samples.raises (Exn APIError "unreachable"))
                (Samples.upload "test.pdf" "application/pdf") IO.initial in
  let out2 := Main.analyze_contract_endpoint Samples.tmp_ok
                (fun _ => Ok Samples2.broken_document)
                JsonDecoder.decode
                (Samples.raises (Exn APIError "unreachable"))
                (Samples.upload "test.pdf" "application/pdf") IO.initial in
  (Main.status (Main.respond (fst out1)) = 422%Z /\ snd out1 = IO.initial)
  /\ (Main.status (Main.respond (fst out2)) = 422%Z /\ snd out2 = IO.initial).
Proof.
  intros out1 out2. split.
  - apply (analyze_contract_endpoint_unreadable Samples.tmp_ok
             Samples.no_reader JsonDecoder.decode
             (Samples.raises (Exn APIError "unreachable"))
             (Samples.upload "test.pdf" "application/pdf") IO.initial []);
      try reflexivity.
    apply (Spec.reader_fails _ _ (Exn PdfReadError "EOF marker not found")).
    reflexivity.
  - apply (analyze_contract_endpoint_unreadable Samples.tmp_ok
             (fun _ => Ok Samples2.broken_document)
             JsonDecoder.decode (Samples.raises (Exn APIError "unreachable"))
             (Samples.upload "test.pdf" "application/pdf") IO.initial []);
      try reflexivity.
    apply (Spec.page_fails _ _ Samples2.broken_document 2 1);
      try reflexivity.
    + apply Nat.lt_succ_diag_r.
    + left. now exists (Exn PdfReadError "Invalid object").
Defined.

Lemma analyze_contract_endpoint_blank_pages_witness :
  Main.status
    (Main.post_analyze_contract Samples.tmp_ok
       (Samples.reads_as [None; Some "  "; Some ""])
       JsonDecoder.decode (Samples.raises (Exn APIError "unreachable"))
       (Samples.upload "test.pdf" "application/pdf"))
  = 422%Z.
Proof.
  apply (analyze_contract_endpoint_blank_pages Samples.tmp_ok
           (Samples.reads_as [None; Some "  "; Some ""])
           JsonDecoder.decode (Samples.raises (Exn APIError "unreachable"))
           (Samples.upload "test.pdf" "application/pdf") []
           (Samples.document [None; Some "  "; Some ""])
           [None; Some "  "; Some ""]); try reflexivity.
  apply document_yields.
Defined.


(** A reply whose summary is [NaN] is returned by the handler and cannot be
    encoded: the answer is a plain 500. *)
Example nan_summary_is_not_encoded :
  Main.post_analyze_contract Samples.tmp_ok
    (Samples.reads_as [Some "This is extracted PDF text."])
    JsonDecoder.decode
    (Samples.replies_with (PStr (Samples.reply_json "NaN" "[]")))
    (Samples.upload "test_contract.pdf" "application/pdf")
  = {| Main.status := 500; Main.body := PStr "Internal Server Error" |}.
Proof. vm_compute. reflexivity. Qed.

Lemma analyze_contract_endpoint_transport_error_witness :
  exists summary,
    Main.post_analyze_contract Samples.tmp_ok
      (Samples.reads_as [Some "This is extracted PDF text."])
      JsonDecoder.decode
      (Samples.raises (Exn APIError "Simulated API Error"))
      (Samples.upload "test_contract.pdf" "application/pdf")
    = {| Main.status := 200;
         Main.body :=
           PDict [ ("original_filename", PStr "test_contract.pdf");
                   ("simplified_contract", PStr summary);
                   ("cons", PList []) ] |}
    /\ contains "Simulated API Error" summary = true.
Proof.
  apply (analyze_contract_endpoint_transport_error Samples.tmp_ok
           (Samples.reads_as [Some "This is extracted PDF text."])
           JsonDecoder.decode
           (Samples.raises (Exn APIError "Simulated API Error"))
           (Samples.upload "test_contract.pdf" "application/pdf") []
           "This is extracted PDF text."
           (Exn APIError "Simulated API Error")); reflexivity.
Defined.

Lemma analyze_contract_endpoint_tmp_failure_witness :
  let out := Main.analyze_contract_endpoint
               (Samples2.tmp_fails (Exn OSError "No space left on device"))
               Samples.no_reader JsonDecoder.decode
               (Samples.raises (Exn APIError "unreachable"))
               (Samples.upload "test.pdf" "application/pdf") IO.initial in
  Main.respond (fst out)
  = {| Main.status := 500;
       Main.body :=
         PDict [("detail",
                 PStr "Failed to save or read uploaded PDF: No space left on device")] |}
  /\ snd out = IO.initial.
Proof.
  intro out.
  exact (analyze_contract_endpoint_tmp_failure
           (Samples2.tmp_fails (Exn OSError "No space left on device"))
           Samples.no_reader JsonDecoder.decode
           (Samples.raises (Exn APIError "unreachable"))
           (Samples.upload "test.pdf" "application/pdf") IO.initial
           (Exn OSError "No space left on device") eq_refl eq_refl eq_refl).
Defined.

(** The analysis function replaced by one that raises: an [Exception], as
    in the test suite, and a [FileNotFoundError], which is an [OSError]. *)
Lemma handler_analysis_raises_witness :
  Main.respond
    (fst (Handler.analyze_contract_endpoint Samples.tmp_ok
            (Samples2.extracts "Some text.")
            (Samples2.fails (Exn Exception "GPT blew up"))
            (Samples.upload "test.pdf" "application/pdf") IO.initial))
  = {| Main.status := 500;
       Main.body :=
         PDict [("detail",
                 PStr "Error during GPT analysis: GPT blew up")] |}
  /\
  Main.respond
    (fst (Handler.analyze_contract_endpoint Samples.tmp_ok
            (Samples2.extracts "Some text.")
            (Samples2.fails (Exn PdfScript.FileNotFoundError "missing.cfg"))
            (Samples.upload "test.pdf" "application/pdf") IO.initial))
  = {| Main.status := 500;
       Main.body := PDict [("detail", PStr "missing.cfg")] |}.
Proof.
  split.
  - exact (handler_analysis_raises Samples.tmp_ok
             (Samples2.extracts "Some text.")
             (Samples2.fails (Exn Exception "GPT blew up"))
             (Samples.upload "test.pdf" "application/pdf")
             IO.initial IO.initial [] "Some text."
             (Exn Exception "GPT blew up")
             eq_refl eq_refl eq_refl eq_refl eq_refl eq_refl).
  - exact (handler_analysis_raises Samples.tmp_ok
             (Samples2.extracts "Some text.")
             (Samples2.fails (Exn PdfScript.FileNotFoundError "missing.cfg"))
             (Samples.upload "test.pdf" "application/pdf")
             IO.initial IO.initial [] "Some text."
             (Exn PdfScript.FileNotFoundError "missing.cfg")
             eq_refl eq_refl eq_refl eq_refl eq_refl eq_refl).
Defined.


End MoreInstances.
